(** * RSB bot automation: the workflow state machine and its controller

    A shallow embedding of [tasks.py]: the [BotStateMachine] transition
    table (built on the [transitions] package) and the [RobotSpareBinBot]
    controller, whose [run] method sequences the browser, spreadsheet and
    PDF collaborators under a single [try]/[except]. *)

From Stdlib Require Import ZArith Ascii String.
From stdpp Require Import base decidable option list strings gmap pretty.

Set Default Proof Using "Type".
Open Scope string_scope.
Open Scope list_scope.

(** ** Python exceptions

    The values of this type stand for instances of Python's [Exception]
    class, the ones an [except Exception] clause handles.  Interpreter
    signals that derive from [BaseException] only (keyboard interrupt,
    interpreter exit) end the process and are not part of the model. *)

Inductive exn : Type :=
| MachineError (value : string)   (* transitions.MachineError *)
| KeyError (key : string)         (* a missing dictionary key *)
| LibraryError (msg : string).    (* raised by a browser, HTTP, Excel or PDF call *)

#[global] Instance exn_eq_dec : EqDecision exn.
Proof. solve_decision. Defined.

Definition dquote : string := String (Ascii.ascii_of_nat 34) EmptyString.
Definition squote : string := "'".

Definition backslash : string := "\".

Definition hex_digit (n : nat) : string :=
  String (nth n (list_ascii_of_string "0123456789abcdef") "0"%char) EmptyString.

(** One character of [repr(s)], [quote] being the quote chosen for the
    whole string. *)
Definition repr_char (quote : string) (c : ascii) : string :=
  let n := nat_of_ascii c in
  if decide (String c EmptyString = backslash) then backslash +:+ backslash
  else if decide (String c EmptyString = quote) then backslash +:+ quote
  else if decide (n = 9) then backslash +:+ "t"
  else if decide (n = 10) then backslash +:+ "n"
  else if decide (n = 13) then backslash +:+ "r"
  else if decide (n < 32 \/ n = 127)
       then backslash +:+ "x" +:+ hex_digit (n / 16) +:+ hex_digit (n mod 16)
  else String c EmptyString.

Fixpoint repr_chars (quote : string) (s : string) : string :=
  match s with
  | EmptyString => EmptyString
  | String c rest => repr_char quote c +:+ repr_chars quote rest
  end.

Fixpoint contains (c : ascii) (s : string) : bool :=
  match s with
  | EmptyString => false
  | String c' rest => if decide (c' = c) then true else contains c rest
  end.

(** [repr(s)] of a Python [str]: single quotes, unless the string holds
    a single quote and no double quote; the backslash, the chosen quote
    and the control characters are escaped.  Strings are byte strings
    here; bytes above 127 (UTF-8) are kept as they are, as [repr] keeps
    printable characters. *)
Definition repr_str (s : string) : string :=
  let quote :=
    if contains "'"%char s && negb (contains (Ascii.ascii_of_nat 34) s)
    then dquote else squote in
  quote +:+ repr_chars quote s +:+ quote.

(** [str(e)], as interpolated by the f-strings of the log messages.
    [MachineError.__str__] and [KeyError.__str__] both return the [repr]
    of their argument; other exceptions give their message. *)
Definition str_exn (e : exn) : string :=
  match e with
  | MachineError value => repr_str value
  | KeyError key => repr_str key
  | LibraryError msg => msg
  end.

(** ** The [transitions] package: [Machine], [add_transition], triggers

    Only the features [tasks.py] uses are modelled: named states, an
    initial state, unconditional transitions, the wildcard source ['*'],
    and the defaults [auto_transitions=True] and
    [ignore_invalid_triggers=None]. *)

Module transitions.
Section Machine.
Context {St Tr : Type} `{EqDecision St} `{EqDecision Tr}.
Variable state_name : St -> string.
Variable trigger_name : Tr -> string.
(** The trigger [to_<state>] the machine adds by itself for a state. *)
Variable auto_trigger : St -> Tr.

(** The [source] argument of [add_transition]. *)
Inductive Source : Type :=
| wildcard_all             (* '*' *)
| named (s : St).

Record Transition : Type := mkTransition { source : St; dest : St }.

(** [events] flattens the package's [events[trigger].transitions[source]]
    lists, keeping insertion order. *)
Record Machine : Type := mkMachine {
  states : list St;
  initial : St;
  events : list (Tr * Transition)
}.

(** [add_transition(trigger, source, dest)]: a wildcard source is
    expanded, when the transition is added, to every state known to the
    machine; one [Transition] is appended per source state. *)
Definition add_transition (trigger : Tr) (src : Source) (dst : St)
    (m : Machine) : Machine :=
  let sources := match src with
                 | wildcard_all => states m
                 | named s => [s]
                 end in
  {| states := states m;
     initial := initial m;
     events := events m ++
               map (fun s => (trigger, mkTransition s dst)) sources |}.

(** [add_states] for one state, with [auto_transitions] on: the state is
    registered, then every state [a] known so far gets its automatic
    trigger [to_<a>] from the new state, the new state's own trigger
    being added from every state known so far. *)
Definition add_state (k : St) (m : Machine) : Machine :=
  let m := {| states := states m ++ [k];
              initial := initial m;
              events := events m |} in
  fold_left
    (fun m a =>
       if decide (a = k)
       then add_transition (auto_trigger a) wildcard_all a m
       else add_transition (auto_trigger a) (named k) a m)
    (states m) m.

(** [Machine(model, states, initial)]: the states are added one by one;
    the automatic transitions make [to_<a>] legal from every state, for
    every state [a]. *)
Definition new (sts : list St) (init : St) : Machine :=
  fold_left (fun m k => add_state k m) sts
    {| states := []; initial := init; events := [] |}.

(** [events[trigger].transitions[state]] *)
Definition transitions_from (m : Machine) (trigger : Tr) (cur : St)
    : list Transition :=
  map snd
    (filter (fun e => fst e = trigger /\ source (snd e) = cur) (events m)).

Definition invalid_trigger_msg (trigger : Tr) (cur : St) : string :=
  "Can't trigger event " +:+ trigger_name trigger +:+
  " from state " +:+ state_name cur +:+ "!".

(** Firing a trigger on a model whose state is [cur]: [MachineError] when
    the event has no transition from [cur], otherwise the first
    transition from [cur] is executed (there are no conditions) and its
    destination becomes the model's state. *)
Definition trigger_event (m : Machine) (trigger : Tr) (cur : St)
    : exn + St :=
  match transitions_from m trigger cur with
  | [] => inl (MachineError (invalid_trigger_msg trigger cur))
  | t :: _ => inr (dest t)
  end.
End Machine.
Arguments Source : clear implicits.
Arguments Transition : clear implicits.
Arguments Machine : clear implicits.
End transitions.

(** ** [BotStateMachine] *)

Module BotStateMachine.

Inductive State : Type :=
| start | login | process_data | export | log_out | error | completed.

Inductive Trigger : Type :=
| proceed_to_login | process_sales_data | export_results
| proceed_to_log_out | complete_task | handle_error | recover.

#[global] Instance State_eq_dec : EqDecision State.
Proof. solve_decision. Defined.
#[global] Instance Trigger_eq_dec : EqDecision Trigger.
Proof. solve_decision. Defined.

Definition state_name (s : State) : string :=
  match s with
  | start => "start" | login => "login" | process_data => "process_data"
  | export => "export" | log_out => "log_out" | error => "error"
  | completed => "completed"
  end.

Definition trigger_name (t : Trigger) : string :=
  match t with
  | proceed_to_login => "proceed_to_login"
  | process_sales_data => "process_sales_data"
  | export_results => "export_results"
  | proceed_to_log_out => "proceed_to_log_out"
  | complete_task => "complete_task"
  | handle_error => "handle_error"
  | recover => "recover"
  end.

(** The names of all the triggers of the machine: the seven declared
    with [add_transition], and the automatic [to_<state>] of each state. *)
Inductive TriggerName : Type :=
| declared (trigger : Trigger)
| to_ (s : State).

#[global] Instance TriggerName_eq_dec : EqDecision TriggerName.
Proof. solve_decision. Defined.

Definition name_of (name : TriggerName) : string :=
  match name with
  | declared trigger => trigger_name trigger
  | to_ s => "to_" +:+ state_name s
  end.

(** The class attribute [states]. *)
Definition states : list State :=
  [start; login; process_data; export; log_out; error; completed].

Abbreviation Machine := (transitions.Machine State TriggerName).

(** An instance: the machine built by [__init__] and the [state]
    attribute the machine maintains on its model ([model=self]). *)
Record t : Type := mk { machine : Machine; state : State }.

(** [__init__]: the machine with initial state [start], built with the
    package defaults, and the seven [add_transition] calls, in source
    order. *)
Definition init : t :=
  let m := transitions.new to_ states start in
  let m := transitions.add_transition (declared proceed_to_login) (transitions.named start) login m in
  let m := transitions.add_transition (declared process_sales_data) (transitions.named login) process_data m in
  let m := transitions.add_transition (declared export_results) (transitions.named process_data) export m in
  let m := transitions.add_transition (declared proceed_to_log_out) (transitions.named export) log_out m in
  let m := transitions.add_transition (declared complete_task) (transitions.named log_out) completed m in
  let m := transitions.add_transition (declared handle_error) transitions.wildcard_all error m in
  let m := transitions.add_transition (declared recover) (transitions.named error) start m in
  {| machine := m; state := transitions.initial m |}.

(** Calling a trigger method of the model by name: the new instance, or
    the exception raised, in which case the instance is untouched. *)
Definition fire_named (name : TriggerName) (sm : t) : exn + t :=
  match transitions.trigger_event state_name name_of
          (machine sm) name (state sm) with
  | inl e => inl e
  | inr s' => inr {| machine := machine sm; state := s' |}
  end.

(** Calling the declared trigger method [self.<trigger>()]. *)
Definition fire (trigger : Trigger) (sm : t) : exn + t :=
  fire_named (declared trigger) sm.

(** An instance of the class in an arbitrary current state. *)
Definition at_state (s : State) : t :=
  {| machine := machine init; state := s |}.

End BotStateMachine.

(** ** What a run does to the outside world

    The browser, HTTP, spreadsheet and PDF libraries are collaborators:
    each call either returns or raises.  A [World] fixes, for one run, the
    outcome of every such call, the values of the two environment
    variables, and the data the collaborators hand back. *)

(** Cell and environment values: [str], [int] or [None]. *)
Inductive value : Type :=
| VStr (s : string)
| VInt (n : Z)
| VNone.

(** [str(v)], also the conversion an f-string applies. *)
Definition str (v : value) : string :=
  match v with
  | VStr s => s
  | VInt n => pretty n
  | VNone => "None"
  end.

(** One row of the worksheet table, keyed by column header. *)
Abbreviation Row := (gmap string value).

(** The method of [RobotSpareBinBot] a library call is made from; for the
    per-row method, also the position of the row in the worksheet. *)
Inductive Ctx : Type :=
| In_open_the_intranet_website
| In_log_in
| In_download_excel_file
| In_fill_and_submit_sales_form (row_index : nat)
| In_fill_form_with_excel_data
| In_collect_results
| In_export_as_pdf
| In_log_out.

(** The library calls of [tasks.py], with their arguments. *)
Inductive Op : Type :=
| browser_configure (slowmo : Z)
| browser_goto (url : string)
| browser_page
| page_fill (selector : string) (v : value)
| page_select_option (selector : string) (v : string)
| page_click (selector : string)
| page_screenshot (path : string)
| page_locator_inner_html (selector : string)
| HTTP_new
| http_download (url : string) (overwrite : bool)
| Files_new
| excel_open_workbook (path : string)
| excel_read_worksheet_as_table (name : string) (header : bool)
| excel_close_workbook
| PDF_new
| pdf_html_to_pdf (content : string) (output_path : string).

Inductive Level : Type := INFO | WARNING | ERROR.

#[global] Instance value_eq_dec : EqDecision value.
Proof. solve_decision. Defined.
#[global] Instance Ctx_eq_dec : EqDecision Ctx.
Proof. solve_decision. Defined.
#[global] Instance Op_eq_dec : EqDecision Op.
Proof. solve_decision. Defined.
#[global] Instance Level_eq_dec : EqDecision Level.
Proof. solve_decision. Defined.

Record World : Type := mkWorld {
  (** [None]: the call returns; [Some e]: it raises [e]. *)
  outcome : Ctx -> Op -> option exn;
  (** [os.getenv] of the two credentials. *)
  USERNAME : value;
  PASSWORD : value;
  (** what [read_worksheet_as_table] returns *)
  worksheet : list Row;
  (** what [inner_html] of the results element returns *)
  sales_results_html : string
}.

(** What a run leaves behind, in order: log records, library calls with
    their outcome, and trigger calls on the state machine with the state
    they were made in and the state reached ([None]: [MachineError]). *)
Inductive event : Type :=
| Logged (lvl : Level) (msg : string)
| Called (ctx : Ctx) (op : Op) (raised : option exn)
| Fired (trigger : BotStateMachine.Trigger) (src : BotStateMachine.State)
        (dst : option BotStateMachine.State).

#[global] Instance event_eq_dec : EqDecision event.
Proof. solve_decision. Defined.

(** ** [RobotSpareBinBot] *)

Module RobotSpareBinBot.

(** The controller object: its only attribute is the state machine. *)
Record t : Type := mk { state_machine : BotStateMachine.t }.

(** [__init__] *)
Definition init : t := {| state_machine := BotStateMachine.init |}.

(** A controller whose state machine is in state [s]. *)
Definition at_state (s : BotStateMachine.State) : t :=
  {| state_machine := BotStateMachine.at_state s |}.

Definition current_state (b : t) : BotStateMachine.State :=
  BotStateMachine.state (state_machine b).

(** *** Methods as computations

    A method takes the controller, emits events, and hands back the
    controller together with a return value or a raised exception. *)

Definition M (A : Type) : Type := t -> list event * t * (exn + A).

Definition out {A} (r : list event * t * (exn + A)) : list event := r.1.1.
Definition st {A} (r : list event * t * (exn + A)) : t := r.1.2.
Definition val {A} (r : list event * t * (exn + A)) : exn + A := r.2.

Definition ret {A} (a : A) : M A := fun b => ([], b, inr a).

Definition raise {A} (e : exn) : M A := fun b => ([], b, inl e).

Definition bind {A B} (m : M A) (k : A -> M B) : M B :=
  fun b =>
    match m b with
    | (evs, b', inl e) => (evs, b', inl e)
    | (evs, b', inr a) =>
        match k a b' with
        | (evs', b'', r) => (evs ++ evs', b'', r)
        end
    end.

(** [try: body  except Exception as e: handler e] *)
Definition try_except {A} (body : M A) (handler : exn -> M A) : M A :=
  fun b =>
    match body b with
    | (evs, b', inl e) =>
        match handler e b' with
        | (evs', b'', r) => (evs ++ evs', b'', r)
        end
    | (evs, b', inr a) => (evs, b', inr a)
    end.

Declare Scope py_scope.
Delimit Scope py_scope with py.
Notation "x <- m ;; k" := (bind m (fun x => k))
  (at level 100, m at next level, right associativity) : py_scope.
Notation "m ;; k" := (bind m (fun _ => k))
  (at level 100, right associativity) : py_scope.
Open Scope py_scope.

Definition logging (lvl : Level) (msg : string) : M unit :=
  fun b => ([Logged lvl msg], b, inr tt).
Definition logging_info := logging INFO.
Definition logging_warning := logging WARNING.
Definition logging_error := logging ERROR.

(** [self.state_machine.<trigger>()] *)
Definition fire (trigger : BotStateMachine.Trigger) : M unit :=
  fun b =>
    let src := current_state b in
    match BotStateMachine.fire trigger (state_machine b) with
    | inl e => ([Fired trigger src None], b, inl e)
    | inr sm' =>
        ([Fired trigger src (Some (BotStateMachine.state sm'))],
         {| state_machine := sm' |}, inr tt)
    end.

(** [row[key]] *)
Definition getitem (row : Row) (key : string) : M value :=
  match row !! key with
  | Some v => ret v
  | None => raise (KeyError key)
  end.

Section Methods.
Variable w : World.

(** A library call made from method [ctx]. *)
Definition call (ctx : Ctx) (op : Op) : M unit :=
  fun b =>
    ([Called ctx op (outcome w ctx op)], b,
     match outcome w ctx op with
     | Some e => inl e
     | None => inr tt
     end).

Definition open_the_intranet_website : M unit :=
  try_except
    (call In_open_the_intranet_website (browser_configure 100) ;;
     call In_open_the_intranet_website
          (browser_goto "https://robotsparebinindustries.com/") ;;
     logging_info "Navigated to intranet website.")
    (fun e =>
       logging_error ("Error opening the website: " +:+ str_exn e) ;;
       raise e).

Definition log_in : M unit :=
  try_except
    (call In_log_in browser_page ;;
     call In_log_in (page_fill "#username" (USERNAME w)) ;;
     call In_log_in (page_fill "#password" (PASSWORD w)) ;;
     call In_log_in (page_click "button:text('Log in')") ;;
     logging_info "Logged in successfully.")
    (fun e =>
       logging_error ("Login failed: " +:+ str_exn e) ;;
       raise e).

Definition download_excel_file : M unit :=
  try_except
    (call In_download_excel_file HTTP_new ;;
     call In_download_excel_file
          (http_download
             "https://robotsparebinindustries.com/SalesData.xlsx" true) ;;
     logging_info "Excel file downloaded successfully.")
    (fun e =>
       logging_error ("Failed to download Excel file: " +:+ str_exn e) ;;
       raise e).

(** The [try] block of [fill_and_submit_sales_form], for the row at
    position [i] of the worksheet. *)
Definition sales_form_steps (i : nat) (sales_rep : Row) : M unit :=
  let ctx := In_fill_and_submit_sales_form i in
  call ctx browser_page ;;
  first_name <- getitem sales_rep "First Name" ;;
  call ctx (page_fill "#firstname" first_name) ;;
  last_name <- getitem sales_rep "Last Name" ;;
  call ctx (page_fill "#lastname" last_name) ;;
  sales_target <- getitem sales_rep "Sales Target" ;;
  call ctx (page_select_option "#salestarget" (str sales_target)) ;;
  sales <- getitem sales_rep "Sales" ;;
  call ctx (page_fill "#salesresult" (VStr (str sales))) ;;
  call ctx (page_click "text=Submit") ;;
  first_name <- getitem sales_rep "First Name" ;;
  last_name <- getitem sales_rep "Last Name" ;;
  logging_info ("Sales data submitted for: "
                +:+ str first_name +:+ " " +:+ str last_name).

Definition fill_and_submit_sales_form (i : nat) (sales_rep : Row)
    : M unit :=
  try_except
    (sales_form_steps i sales_rep)
    (fun e =>
       logging_warning ("Error submitting sales form: " +:+ str_exn e)).

(** [for row in worksheet: self.fill_and_submit_sales_form(row)],
    from position [i] on. *)
Fixpoint for_row_in (i : nat) (rows : list Row) : M unit :=
  match rows with
  | [] => ret tt
  | row :: rest =>
      fill_and_submit_sales_form i row ;; for_row_in (S i) rest
  end.

Definition fill_form_with_excel_data : M unit :=
  try_except
    (call In_fill_form_with_excel_data Files_new ;;
     call In_fill_form_with_excel_data
          (excel_open_workbook "SalesData.xlsx") ;;
     call In_fill_form_with_excel_data
          (excel_read_worksheet_as_table "data" true) ;;
     for_row_in 0 (worksheet w) ;;
     call In_fill_form_with_excel_data excel_close_workbook)
    (fun e =>
       logging_error ("Error processing Excel file: " +:+ str_exn e) ;;
       raise e).

Definition collect_results : M unit :=
  try_except
    (call In_collect_results browser_page ;;
     call In_collect_results
          (page_screenshot "output/sales_summary.png") ;;
     logging_info "Screenshot captured.")
    (fun e =>
       logging_error ("Error taking screenshot: " +:+ str_exn e) ;;
       raise e).

Definition export_as_pdf : M unit :=
  try_except
    (call In_export_as_pdf browser_page ;;
     call In_export_as_pdf (page_locator_inner_html "#sales-results") ;;
     call In_export_as_pdf PDF_new ;;
     call In_export_as_pdf
          (pdf_html_to_pdf (sales_results_html w)
                           "output/sales_results.pdf") ;;
     logging_info "Sales results exported to PDF.")
    (fun e =>
       logging_error ("Error exporting PDF: " +:+ str_exn e) ;;
       raise e).

Definition log_out : M unit :=
  try_except
    (call In_log_out browser_page ;;
     call In_log_out (page_click "text=Log out") ;;
     logging_info "Logged out successfully.")
    (fun e =>
       logging_error ("Error during log out: " +:+ str_exn e) ;;
       raise e).

(** The [try] block of [run]. *)
Definition run_steps : M unit :=
  logging_info "Starting the bot..." ;;
  fire BotStateMachine.proceed_to_login ;;
  open_the_intranet_website ;;
  log_in ;;
  fire BotStateMachine.process_sales_data ;;
  download_excel_file ;;
  fill_form_with_excel_data ;;
  fire BotStateMachine.export_results ;;
  collect_results ;;
  export_as_pdf ;;
  fire BotStateMachine.proceed_to_log_out ;;
  log_out ;;
  fire BotStateMachine.complete_task ;;
  logging_info "Bot completed successfully.".

Definition run : M unit :=
  try_except
    run_steps
    (fun e =>
       logging_error ("Unexpected error occurred: " +:+ str_exn e) ;;
       fire BotStateMachine.handle_error).
End Methods.

End RobotSpareBinBot.

(** ** Reading a run's events *)

(** Every trigger called on the state machine, with the state it was
    called in. *)
Definition trigger_calls (tr : list event)
    : list (BotStateMachine.Trigger * BotStateMachine.State) :=
  omap (fun ev => match ev with
                  | Fired t src _ => Some (t, src)
                  | _ => None
                  end) tr.

(** The triggers that fired, that is, whose transition was executed. *)
Definition fired_triggers (tr : list event) : list BotStateMachine.Trigger :=
  omap (fun ev => match ev with
                  | Fired t _ (Some _) => Some t
                  | _ => None
                  end) tr.

(** The path an operation writes an export artifact to. *)
Definition export_artifact (op : Op) : option string :=
  match op with
  | page_screenshot path => Some path
  | pdf_html_to_pdf _ output_path => Some output_path
  | _ => None
  end.

(** The export artifacts written: the paths of the screenshot and PDF
    calls that returned. *)
Definition export_artifacts (tr : list event) : list string :=
  omap (fun ev => match ev with
                  | Called _ op None => export_artifact op
                  | _ => None
                  end) tr.

Definition warnings (tr : list event) : list string :=
  omap (fun ev => match ev with
                  | Logged WARNING msg => Some msg
                  | _ => None
                  end) tr.

(** The worksheet positions for which [fill_and_submit_sales_form] was
    entered, read off the first statement of its [try] block. *)
Definition submission_attempts (tr : list event) : list nat :=
  omap (fun ev => match ev with
                  | Called (In_fill_and_submit_sales_form i) browser_page _ =>
                      Some i
                  | _ => None
                  end) tr.

(** ** The transition table of the specification *)

Definition spec_table
    : list (BotStateMachine.Trigger
            * transitions.Source BotStateMachine.State
            * BotStateMachine.State) :=
  [ (BotStateMachine.proceed_to_login,
     transitions.named BotStateMachine.start, BotStateMachine.login);
    (BotStateMachine.process_sales_data,
     transitions.named BotStateMachine.login, BotStateMachine.process_data);
    (BotStateMachine.export_results,
     transitions.named BotStateMachine.process_data, BotStateMachine.export);
    (BotStateMachine.proceed_to_log_out,
     transitions.named BotStateMachine.export, BotStateMachine.log_out);
    (BotStateMachine.complete_task,
     transitions.named BotStateMachine.log_out, BotStateMachine.completed);
    (BotStateMachine.handle_error,
     transitions.wildcard_all, BotStateMachine.error);
    (BotStateMachine.recover,
     transitions.named BotStateMachine.error, BotStateMachine.start) ].

Definition source_matches (src : transitions.Source BotStateMachine.State)
    (s : BotStateMachine.State) : Prop :=
  match src with
  | transitions.wildcard_all => True
  | transitions.named s' => s' = s
  end.

(** [(trigger, s)] is a pair of the table: some row of [trigger] has a
    source that matches [s]. *)
Definition in_table (trigger : BotStateMachine.Trigger)
    (s d : BotStateMachine.State) : Prop :=
  exists src, (trigger, src, d) ∈ spec_table /\ source_matches src s.

(** ** Sample worlds *)

Definition sample_row (first last : string) (target sales : Z) : Row :=
  {[ "First Name" := VStr first; "Last Name" := VStr last;
     "Sales Target" := VInt target; "Sales" := VInt sales ]}.

(** Every library call returns. *)
Definition cooperative (rows : list Row) : World :=
  {| outcome := fun _ _ => None;
     USERNAME := VStr "maria"; PASSWORD := VStr "thoushallnotpass";
     worksheet := rows;
     sales_results_html := "<div>results</div>" |}.

(** Every library call returns, except those made from [ctx], which
    raise [e]. *)
Definition failing_in (ctx : Ctx) (e : exn) (rows : list Row) : World :=
  {| outcome := fun c _ => if decide (c = ctx) then Some e else None;
     USERNAME := VStr "maria"; PASSWORD := VStr "thoushallnotpass";
     worksheet := rows;
     sales_results_html := "<div>results</div>" |}.

Definition three_rows : list Row :=
  [ sample_row "Lisa" "Clark" 25000 13016;
    sample_row "Darla" "Martin" 30000 14923;
    sample_row "Tanya" "Shah" 35000 38921 ].

(** The spreadsheet download is refused. *)
Definition download_outage : World :=
  failing_in In_download_excel_file
    (LibraryError "HTTPError: 503 Service Unavailable") three_rows.

(** The form times out on the second row only. *)
Definition second_row_timeout : World :=
  failing_in (In_fill_and_submit_sales_form 1)
    (LibraryError "Timeout 30000ms exceeded.") three_rows.

(** Everything works until the sign-out. *)
Definition sign_out_timeout : World :=
  failing_in In_log_out (LibraryError "Timeout 30000ms exceeded.") three_rows.

(** ** The events of a run whose library calls all return

    [trace_before_rows] up to the first row of the worksheet,
    [trace_after_rows] from the last row on; the events of the rows go in
    between. *)

Definition trace_before_rows (w : World) : list event :=
  [ Logged INFO "Starting the bot...";
    Fired BotStateMachine.proceed_to_login BotStateMachine.start
      (Some BotStateMachine.login);
    Called In_open_the_intranet_website (browser_configure 100) None;
    Called In_open_the_intranet_website
      (browser_goto "https://robotsparebinindustries.com/") None;
    Logged INFO "Navigated to intranet website.";
    Called In_log_in browser_page None;
    Called In_log_in (page_fill "#username" (USERNAME w)) None;
    Called In_log_in (page_fill "#password" (PASSWORD w)) None;
    Called In_log_in (page_click "button:text('Log in')") None;
    Logged INFO "Logged in successfully.";
    Fired BotStateMachine.process_sales_data BotStateMachine.login
      (Some BotStateMachine.process_data);
    Called In_download_excel_file HTTP_new None;
    Called In_download_excel_file
      (http_download "https://robotsparebinindustries.com/SalesData.xlsx" true)
      None;
    Logged INFO "Excel file downloaded successfully.";
    Called In_fill_form_with_excel_data Files_new None;
    Called In_fill_form_with_excel_data
      (excel_open_workbook "SalesData.xlsx") None;
    Called In_fill_form_with_excel_data
      (excel_read_worksheet_as_table "data" true) None ].

Definition trace_after_rows (w : World) : list event :=
  [ Called In_fill_form_with_excel_data excel_close_workbook None;
    Fired BotStateMachine.export_results BotStateMachine.process_data
      (Some BotStateMachine.export);
    Called In_collect_results browser_page None;
    Called In_collect_results (page_screenshot "output/sales_summary.png") None;
    Logged INFO "Screenshot captured.";
    Called In_export_as_pdf browser_page None;
    Called In_export_as_pdf (page_locator_inner_html "#sales-results") None;
    Called In_export_as_pdf PDF_new None;
    Called In_export_as_pdf
      (pdf_html_to_pdf (sales_results_html w) "output/sales_results.pdf") None;
    Logged INFO "Sales results exported to PDF.";
    Fired BotStateMachine.proceed_to_log_out BotStateMachine.export
      (Some BotStateMachine.log_out);
    Called In_log_out browser_page None;
    Called In_log_out (page_click "text=Log out") None;
    Logged INFO "Logged out successfully.";
    Fired BotStateMachine.complete_task BotStateMachine.log_out
      (Some BotStateMachine.completed);
    Logged INFO "Bot completed successfully." ].

(** Every library call made outside the per-row method returns. *)
Definition cooperative_outside_rows (w : World) : Prop :=
  forall ctx op,
    (forall i, ctx <> In_fill_and_submit_sales_form i) ->
    outcome w ctx op = None.

(** ** Specifications of methods *)

(** [wp m b Q]: run from controller [b], method [m] emits events, leaves
    a controller and yields a result that satisfy [Q]. *)
Definition wp {A} (m : RobotSpareBinBot.M A) (b : RobotSpareBinBot.t)
    (Q : list event -> RobotSpareBinBot.t -> exn + A -> Prop) : Prop :=
  Q (RobotSpareBinBot.out (m b)) (RobotSpareBinBot.st (m b))
    (RobotSpareBinBot.val (m b)).

(** [m] leaves the controller as it found it and emits only events that
    satisfy [P]. *)
Definition quiet {A} (P : event -> Prop) (m : RobotSpareBinBot.M A) : Prop :=
  forall b, wp m b (fun evs b' _ => b' = b /\ Forall P evs).

(** [m] returns: it never raises. *)
Definition returns {A} (m : RobotSpareBinBot.M A) : Prop :=
  forall b, exists a, RobotSpareBinBot.val (m b) = inr a.

(** [m] raises [e], whatever the controller's state. *)
Definition raises {A} (m : RobotSpareBinBot.M A) (e : exn) : Prop :=
  forall b, RobotSpareBinBot.val (m b) = inl e.

(** Not a trigger call. *)
Definition library_event (ev : event) : Prop :=
  match ev with
  | Fired _ _ _ => False
  | _ => True
  end.

(** Neither a trigger call nor a call that writes an export artifact. *)
Definition harmless (ev : event) : Prop :=
  match ev with
  | Fired _ _ _ => False
  | Called _ op _ => export_artifact op = None
  | Logged _ _ => True
  end.

(** ** The task and further readings of a run *)

(** [robot_spare_bin_python], the task: a fresh controller, run once. *)
Definition robot_spare_bin_python (w : World)
    : list event * RobotSpareBinBot.t * (exn + unit) :=
  RobotSpareBinBot.run w RobotSpareBinBot.init.

(** The messages logged at level [ERROR]. *)
Definition errors (tr : list event) : list string :=
  omap (fun ev => match ev with
                  | Logged ERROR msg => Some msg
                  | _ => None
                  end) tr.

(** The trigger calls the machine rejected with [MachineError]. *)
Definition rejected_triggers (tr : list event)
    : list (BotStateMachine.Trigger * BotStateMachine.State) :=
  omap (fun ev => match ev with
                  | Fired t src None => Some (t, src)
                  | _ => None
                  end) tr.

(** The library calls made, with the method they were made from. *)
Definition library_calls (tr : list event) : list (Ctx * Op) :=
  omap (fun ev => match ev with
                  | Called ctx op _ => Some (ctx, op)
                  | _ => None
                  end) tr.

(** The order in which [run] calls the triggers. *)
Definition workflow : list BotStateMachine.Trigger :=
  [ BotStateMachine.proceed_to_login;
    BotStateMachine.process_sales_data;
    BotStateMachine.export_results;
    BotStateMachine.proceed_to_log_out;
    BotStateMachine.complete_task ].

(** The columns [fill_and_submit_sales_form] reads, in the order it
    first reads them. *)
Definition required_columns : list string :=
  ["First Name"; "Last Name"; "Sales Target"; "Sales"].

(** The first required column a row lacks. *)
Definition first_missing (row : Row) : option string :=
  head (filter (fun key => row !! key = None) required_columns).

(** The warning [fill_and_submit_sales_form] logs for exception [e]. *)
Definition warning_for (e : exn) : string :=
  "Error submitting sales form: " +:+ str_exn e.

(** The exceptions the steps of the rows raise, in row order, rows being
    numbered from [i]. *)
Fixpoint row_exceptions (w : World) (i : nat) (rows : list Row)
    (b : RobotSpareBinBot.t) : list exn :=
  match rows with
  | [] => []
  | row :: rest =>
      match RobotSpareBinBot.val (RobotSpareBinBot.sales_form_steps w i row b) with
      | inl e => e :: row_exceptions w (S i) rest b
      | inr _ => row_exceptions w (S i) rest b
      end
  end.

(** A library call made from [ctx] that returned. *)
Definition returned_from (ctx : Ctx) (ev : event) : Prop :=
  exists op, ev = Called ctx op None.

(** The shape shared by the methods that wrap library calls in
    [try]/[except], log and re-raise: the calls made from [ctx] return
    one after the other until either all are done, and [info] is logged,
    or one raises [e], which ends the calls, is logged at level [ERROR]
    as [prefix] followed by [str(e)], and is raised again.  The
    controller is not touched. *)
Definition logs_and_reraises (ctx : Ctx) (prefix info : string)
    (m : RobotSpareBinBot.M unit) : Prop :=
  forall b, exists calls,
    Forall (returned_from ctx) calls
    /\ (m b = (calls ++ [Logged INFO info], b, inr tt)
        \/ exists op e,
             m b = (calls ++ [ Called ctx op (Some e);
                               Logged ERROR (prefix +:+ str_exn e) ],
                    b, inl e)).

(** An event the per-row method can emit: a log record below [ERROR], or
    a call made from a row that writes no export artifact. *)
Definition row_event (ev : event) : Prop :=
  match ev with
  | Logged ERROR _ => False
  | Logged _ _ => True
  | Called (In_fill_and_submit_sales_form _) op _ => export_artifact op = None
  | Called _ _ _ => False
  | Fired _ _ _ => False
  end.

(** What [run] relies on in a collaborator method: the method makes no
    trigger call and leaves the controller alone; when it returns it has
    logged no error, and when it raises [e] it has logged exactly one,
    [prefix] followed by [str(e)]. *)
Definition reports (prefix : string) (m : RobotSpareBinBot.M unit) : Prop :=
  forall b, exists evs,
    Forall library_event evs
    /\ ((m b = (evs, b, inr tt) /\ errors evs = [])
        \/ exists e, m b = (evs, b, inl e)
                     /\ errors evs = [prefix +:+ str_exn e]).

(** The prefixes of the error messages of the collaborator methods. *)
Definition error_prefixes : list string :=
  [ "Error opening the website: "; "Login failed: ";
    "Failed to download Excel file: "; "Error processing Excel file: ";
    "Error taking screenshot: "; "Error exporting PDF: ";
    "Error during log out: " ].

(** A library call that raised outside the per-row method: nothing
    absorbs its exception before [run] does. *)
Definition fatal (ev : event) : bool :=
  match ev with
  | Called (In_fill_and_submit_sales_form _) _ _ => false
  | Called _ _ (Some _) => true
  | _ => false
  end.

(** No library call is made after a fatal one. *)
Definition fail_stop (tr : list event) : Prop :=
  forall pre ev post,
    tr = pre ++ ev :: post -> fatal ev = true -> library_calls post = [].

(** A method that stops at its first fatal call: when it returns, none
    of its calls was fatal; when it raises, no call follows a fatal one,
    also when the events that follow the method contain no call. *)
Definition halts (m : RobotSpareBinBot.M unit) : Prop :=
  forall b,
    match RobotSpareBinBot.val (m b) with
    | inr _ => Forall (fun ev => fatal ev = false) (RobotSpareBinBot.out (m b))
    | inl _ =>
        forall tail, library_calls tail = [] ->
                     fail_stop (RobotSpareBinBot.out (m b) ++ tail)
    end.

(** * The state machine *)

Section StateMachine.
Import BotStateMachine.

Lemma in_table_cases trigger s d :
  in_table trigger s d <->
  match trigger with
  | proceed_to_login => s = start /\ d = login
  | process_sales_data => s = login /\ d = process_data
  | export_results => s = process_data /\ d = export
  | proceed_to_log_out => s = export /\ d = log_out
  | complete_task => s = log_out /\ d = completed
  | handle_error => d = error
  | recover => s = error /\ d = start
  end.
Proof.
  unfold in_table, spec_table. split.
  - intros (src & Hin & Hsrc).
    repeat (apply elem_of_cons in Hin as [Hin | Hin];
            [injection Hin as -> -> ->; simpl in Hsrc; auto |]).
    by apply elem_of_nil in Hin.
  - destruct trigger; intros H; destruct_and?; subst;
      (eexists; split; [ | shelve ]);
      repeat (first [ apply list_elem_of_here | apply list_elem_of_further ]).
    Unshelve. all: simpl; auto.
Qed.
End StateMachine.

(** The declared triggers follow the specification's table: firing
    [trigger] in state [s] executes a transition to [d] exactly when the
    table has a row for [trigger] whose source matches [s] (the wildcard
    source of [handle_error] matches every state) and whose destination
    is [d]. *)
Lemma declared_triggers_follow_the_table trigger s d :
  in_table trigger s d <->
  BotStateMachine.fire trigger (BotStateMachine.at_state s)
  = inr (BotStateMachine.at_state d).
Proof.
  rewrite in_table_cases.
  destruct trigger, s; vm_compute; split;
    try (intros H; discriminate H);
    try (intros H; injection H as <-; auto; fail);
    try (intros [H1 H2]; first [discriminate H1 | subst d; reflexivity]);
    try (intros ->; reflexivity).
Qed.

(** The table is not all the machine has: the automatic trigger
    [to_completed] takes the machine from [start] straight to
    [completed], a move no row of the table allows. *)
Lemma to_completed_fires_from_start :
  BotStateMachine.fire_named (BotStateMachine.to_ BotStateMachine.completed)
    (BotStateMachine.at_state BotStateMachine.start)
  = inr (BotStateMachine.at_state BotStateMachine.completed)
  /\ ~ (exists trigger,
          in_table trigger BotStateMachine.start BotStateMachine.completed).
Proof.
  split; [reflexivity |].
  intros [trigger H]. rewrite in_table_cases in H.
  destruct trigger; destruct_and?; discriminate.
Qed.

(** C1, as the code has it. The seven declared triggers behave exactly
    as the table says, wildcard included, and a declared trigger has no
    transition besides those of the table.  They are not the machine's
    only triggers: [__init__] builds the machine with the package's
    default [auto_transitions], so every state [d] also has a trigger
    [to_<d>] that is legal in every state and moves the machine to [d].
    A trigger called in state [s] moves the machine to [d] exactly when
    it is a declared trigger with a table row from [s] to [d], or it is
    [to_<d>]. *)
Theorem declared_and_automatic_transitions name s d :
  BotStateMachine.fire_named name (BotStateMachine.at_state s)
  = inr (BotStateMachine.at_state d)
  <-> (exists trigger,
         name = BotStateMachine.declared trigger /\ in_table trigger s d)
      \/ name = BotStateMachine.to_ d.
Proof.
  destruct name as [trigger | x].
  - change (BotStateMachine.fire_named (BotStateMachine.declared trigger))
      with (BotStateMachine.fire trigger).
    rewrite <- declared_triggers_follow_the_table. split.
    + intros H. left. by exists trigger.
    + intros [(trigger' & [= <-] & H) | [=]]. exact H.
  - split.
    + intros H. right. f_equal.
      destruct x, s; vm_compute in H; by injection H as <-.
    + intros [(trigger & [=] & _) | [= ->]]. by destruct d, s.
Qed.

(** A trigger fired in a state that no row of the table covers raises. *)
Lemma fire_outside_table trigger s :
  (forall d, ~ in_table trigger s d) ->
  BotStateMachine.fire trigger (BotStateMachine.at_state s)
  = inl (MachineError
           (transitions.invalid_trigger_msg
              BotStateMachine.state_name BotStateMachine.trigger_name trigger s)).
Proof.
  intros Hout.
  assert (forall d, BotStateMachine.fire trigger (BotStateMachine.at_state s)
                    <> inr (BotStateMachine.at_state d)) as Hno.
  { intros d Hd. apply (Hout d). revert Hd.
    rewrite in_table_cases.
    destruct trigger, s; vm_compute; intros H;
      first [discriminate H | injection H as <-; auto]. }
  destruct trigger, s; try reflexivity; exfalso; eapply Hno; reflexivity.
Qed.

Lemma recover_outside_table s :
  s <> BotStateMachine.error -> forall d, ~ in_table BotStateMachine.recover s d.
Proof. intros Hs d. rewrite in_table_cases. tauto. Qed.

(** C2. A declared trigger fired in a state that matches none of its
    declared sources raises [MachineError] (the package's illegal
    transition error) and leaves the state machine, and so the current
    state, as it was; [recover] fired anywhere but in [error] is such a
    case. *)
Theorem illegal_trigger_raises trigger s :
  (forall d, ~ in_table trigger s d)
  \/ (trigger = BotStateMachine.recover /\ s <> BotStateMachine.error) ->
  let e := MachineError
             (transitions.invalid_trigger_msg
                BotStateMachine.state_name BotStateMachine.trigger_name
                trigger s) in
  BotStateMachine.fire trigger (BotStateMachine.at_state s) = inl e
  /\ RobotSpareBinBot.fire trigger (RobotSpareBinBot.at_state s)
     = ([Fired trigger s None], RobotSpareBinBot.at_state s, inl e).
Proof.
  intros H e.
  assert (forall d, ~ in_table trigger s d) as Hout.
  { destruct H as [H | [-> Hs]]; [exact H | by apply recover_outside_table]. }
  pose proof (fire_outside_table trigger s Hout) as Hfire. fold e in Hfire.
  split; [exact Hfire |].
  unfold RobotSpareBinBot.fire, RobotSpareBinBot.at_state. cbn [RobotSpareBinBot.state_machine].
  rewrite Hfire. reflexivity.
Qed.

Lemma illegal_trigger_raises_witness :
  BotStateMachine.fire BotStateMachine.recover
    (BotStateMachine.at_state BotStateMachine.start)
  = inl (MachineError "Can't trigger event recover from state start!")
  /\ RobotSpareBinBot.fire BotStateMachine.recover
       (RobotSpareBinBot.at_state BotStateMachine.start)
     = ([Fired BotStateMachine.recover BotStateMachine.start None],
        RobotSpareBinBot.at_state BotStateMachine.start,
        inl (MachineError "Can't trigger event recover from state start!")).
Proof.
  apply (illegal_trigger_raises BotStateMachine.recover BotStateMachine.start).
  right. split; [reflexivity | discriminate].
Defined.

(** C10. [handle_error] is legal in the two terminal states as well:
    fired in [completed] it moves the machine to [error], and fired in
    [error] it leaves the machine in [error]. *)
Theorem handle_error_in_terminal_states :
  BotStateMachine.fire BotStateMachine.handle_error
    (BotStateMachine.at_state BotStateMachine.completed)
  = inr (BotStateMachine.at_state BotStateMachine.error)
  /\ BotStateMachine.fire BotStateMachine.handle_error
       (BotStateMachine.at_state BotStateMachine.error)
     = inr (BotStateMachine.at_state BotStateMachine.error).
Proof. split; reflexivity. Qed.

(** * The controller *)

Section Rules.
Import RobotSpareBinBot.

Lemma wp_bind {A B} (m : M A) (k : A -> M B) b Q :
  wp m b (fun evs b' r =>
            match r with
            | inl e => Q evs b' (inl e)
            | inr a => wp (k a) b' (fun evs' b'' r' => Q (evs ++ evs') b'' r')
            end) ->
  wp (bind m k) b Q.
Proof.
  unfold wp, bind, out, st, val.
  destruct (m b) as [[evs b'] [e | a]]; cbn; [done |].
  by destruct (k a b') as [[evs' b''] r'].
Qed.

Lemma wp_try_except {A} (body : M A) (handler : exn -> M A) b Q :
  wp body b (fun evs b' r =>
               match r with
               | inl e =>
                   wp (handler e) b' (fun evs' b'' r' => Q (evs ++ evs') b'' r')
               | inr a => Q evs b' (inr a)
               end) ->
  wp (try_except body handler) b Q.
Proof.
  unfold wp, try_except, out, st, val.
  destruct (body b) as [[evs b'] [e | a]]; cbn; [| done].
  by destruct (handler e b') as [[evs' b''] r'].
Qed.

Lemma wp_logging lvl msg b (Q : list event -> t -> exn + unit -> Prop) :
  Q [Logged lvl msg] b (inr tt) -> wp (logging lvl msg) b Q.
Proof. done. Qed.

Lemma wp_call w ctx op b (Q : list event -> t -> exn + unit -> Prop) :
  (forall e, outcome w ctx op = Some e -> Q [Called ctx op (Some e)] b (inl e)) ->
  (outcome w ctx op = None -> Q [Called ctx op None] b (inr tt)) ->
  wp (call w ctx op) b Q.
Proof.
  intros Hraise Hret. unfold wp, call, out, st, val. cbn.
  destruct (outcome w ctx op) as [e |]; auto.
Qed.

Lemma wp_getitem row key b (Q : list event -> t -> exn + value -> Prop) :
  (row !! key = None -> Q [] b (inl (KeyError key))) ->
  (forall v, row !! key = Some v -> Q [] b (inr v)) ->
  wp (getitem row key) b Q.
Proof.
  intros Hraise Hret. unfold wp, getitem.
  destruct (row !! key) as [v |]; cbn; auto.
Qed.

(** A quiet method inside a larger one: the controller is unchanged and
    the events are only known to satisfy [P]. *)
Lemma wp_quiet {A} P (m : M A) b (Q : list event -> t -> exn + A -> Prop) :
  quiet P m ->
  (forall evs r, Forall P evs -> val (m b) = r -> Q evs b r) ->
  wp m b Q.
Proof.
  intros Hm HQ. specialize (Hm b). unfold wp in *.
  destruct Hm as [Hst Hevs]. rewrite Hst. by apply HQ.
Qed.
End Rules.

Section Quiet.
Import RobotSpareBinBot.
Variable P : event -> Prop.

Lemma quiet_ret {A} (a : A) : quiet P (ret a).
Proof. intros b. by split. Qed.

Lemma quiet_raise {A} e : quiet P (@raise A e).
Proof. intros b. by split. Qed.

Lemma quiet_logging lvl msg : P (Logged lvl msg) -> quiet P (logging lvl msg).
Proof. intros HP b. split; [done | by constructor]. Qed.

Lemma quiet_call w ctx op :
  P (Called ctx op (outcome w ctx op)) -> quiet P (call w ctx op).
Proof. intros HP b. split; [done | by constructor]. Qed.

Lemma quiet_getitem row key : quiet P (getitem row key).
Proof. unfold getitem. destruct (row !! key); [apply quiet_ret | apply quiet_raise]. Qed.

Lemma quiet_bind {A B} (m : M A) (k : A -> M B) :
  quiet P m -> (forall a, quiet P (k a)) -> quiet P (bind m k).
Proof.
  intros Hm Hk b. apply wp_bind, (wp_quiet P); [done |].
  intros evs [e | a] Hevs _; [done |].
  apply (wp_quiet P); [done |]. intros evs' r Hevs' _.
  split; [done | by apply Forall_app].
Qed.

Lemma quiet_try_except {A} (body : M A) (handler : exn -> M A) :
  quiet P body -> (forall e, quiet P (handler e)) ->
  quiet P (try_except body handler).
Proof.
  intros Hm Hk b. apply wp_try_except, (wp_quiet P); [done |].
  intros evs [e | a] Hevs _; [| done].
  apply (wp_quiet P); [done |]. intros evs' r Hevs' _.
  split; [done | by apply Forall_app].
Qed.
End Quiet.

Ltac quiet_steps :=
  repeat first
    [ apply quiet_try_except | apply quiet_bind | apply quiet_logging
    | apply quiet_call | apply quiet_raise | apply quiet_getitem
    | apply quiet_ret | intro ];
  try done.

Section MethodSpecs.
Import RobotSpareBinBot.
Variable w : World.

Lemma harmless_library_event ev : harmless ev -> library_event ev.
Proof. by destruct ev. Qed.

Lemma quiet_open_the_intranet_website :
  quiet harmless (open_the_intranet_website w).
Proof. unfold open_the_intranet_website. quiet_steps. Qed.

Lemma quiet_log_in : quiet harmless (log_in w).
Proof. unfold log_in. quiet_steps. Qed.

Lemma quiet_download_excel_file : quiet harmless (download_excel_file w).
Proof. unfold download_excel_file. quiet_steps. Qed.

Lemma quiet_sales_form_steps i sales_rep :
  quiet harmless (sales_form_steps w i sales_rep).
Proof. unfold sales_form_steps. quiet_steps. Qed.

Lemma quiet_fill_and_submit_sales_form i sales_rep :
  quiet harmless (fill_and_submit_sales_form w i sales_rep).
Proof.
  unfold fill_and_submit_sales_form.
  apply quiet_try_except; [apply quiet_sales_form_steps |].
  quiet_steps.
Qed.

Lemma quiet_for_row_in rows : forall i, quiet harmless (for_row_in w i rows).
Proof.
  induction rows as [| row rest IH]; intros i; cbn [for_row_in].
  - apply quiet_ret.
  - apply quiet_bind; [apply quiet_fill_and_submit_sales_form | auto].
Qed.

Lemma quiet_fill_form_with_excel_data :
  quiet harmless (fill_form_with_excel_data w).
Proof.
  unfold fill_form_with_excel_data.
  apply quiet_try_except; [| quiet_steps].
  do 3 (apply quiet_bind; [by apply quiet_call | intros _]).
  apply quiet_bind; [apply quiet_for_row_in | intros _].
  by apply quiet_call.
Qed.

Lemma quiet_collect_results : quiet library_event (collect_results w).
Proof. unfold collect_results. quiet_steps. Qed.

Lemma quiet_export_as_pdf : quiet library_event (export_as_pdf w).
Proof. unfold export_as_pdf. quiet_steps. Qed.

Lemma quiet_log_out : quiet harmless (log_out w).
Proof. unfold log_out. quiet_steps. Qed.

(** The per-row method absorbs whatever its steps raise. *)
Lemma fill_and_submit_sales_form_cases i sales_rep b :
  (RobotSpareBinBot.val (sales_form_steps w i sales_rep b) = inr tt
   /\ fill_and_submit_sales_form w i sales_rep b
      = (out (sales_form_steps w i sales_rep b), b, inr tt))
  \/ (exists e,
        RobotSpareBinBot.val (sales_form_steps w i sales_rep b) = inl e
        /\ fill_and_submit_sales_form w i sales_rep b
           = (out (sales_form_steps w i sales_rep b)
              ++ [Logged WARNING ("Error submitting sales form: " +:+ str_exn e)],
              b, inr tt)).
Proof.
  unfold fill_and_submit_sales_form, try_except.
  destruct (quiet_sales_form_steps i sales_rep b) as [Hst _].
  destruct (sales_form_steps w i sales_rep b) as [[evs b'] [e | []]];
    cbn in Hst |- *; subst b'.
  - right. exists e. done.
  - left. done.
Qed.

Lemma returns_fill_and_submit_sales_form i sales_rep :
  returns (fill_and_submit_sales_form w i sales_rep).
Proof.
  intros b. exists tt.
  destruct (fill_and_submit_sales_form_cases i sales_rep b)
    as [[_ ->] | (e & _ & ->)]; done.
Qed.

Lemma returns_for_row_in rows : forall i, returns (for_row_in w i rows).
Proof.
  induction rows as [| row rest IH]; intros i b; cbn [for_row_in].
  - by exists tt.
  - exists tt. unfold bind.
    destruct (fill_and_submit_sales_form_cases i row b)
      as [[_ ->] | (e & _ & ->)];
      destruct (IH (S i) b) as [[] Hv];
      destruct (for_row_in w (S i) rest b) as [[evs' b''] r']; done.
Qed.
End MethodSpecs.

Section Observers.
Lemma trigger_calls_app tr1 tr2 :
  trigger_calls (tr1 ++ tr2) = trigger_calls tr1 ++ trigger_calls tr2.
Proof. apply omap_app. Qed.

Lemma fired_triggers_app tr1 tr2 :
  fired_triggers (tr1 ++ tr2) = fired_triggers tr1 ++ fired_triggers tr2.
Proof. apply omap_app. Qed.

Lemma export_artifacts_app tr1 tr2 :
  export_artifacts (tr1 ++ tr2) = export_artifacts tr1 ++ export_artifacts tr2.
Proof. apply omap_app. Qed.

Lemma library_no_trigger_calls evs :
  Forall library_event evs -> trigger_calls evs = [].
Proof.
  induction 1 as [| ev evs Hev _ IH]; [done |].
  destruct ev; cbn in *; done.
Qed.

Lemma library_no_fired_triggers evs :
  Forall library_event evs -> fired_triggers evs = [].
Proof.
  induction 1 as [| ev evs Hev _ IH]; [done |].
  destruct ev; cbn in *; done.
Qed.

Lemma harmless_no_export_artifacts evs :
  Forall harmless evs -> export_artifacts evs = [].
Proof.
  induction 1 as [| ev evs Hev _ IH]; [done |].
  destruct ev as [| ? ? [] |]; cbn in *; try done. by rewrite Hev.
Qed.

Lemma harmless_library evs : Forall harmless evs -> Forall library_event evs.
Proof. intros H. eapply Forall_impl; [exact H | apply harmless_library_event]. Qed.
End Observers.

Section Firing.
Import RobotSpareBinBot.

Lemma fire_in_table trigger s d :
  in_table trigger s d ->
  fire trigger (at_state s) = ([Fired trigger s (Some d)], at_state d, inr tt).
Proof.
  rewrite in_table_cases.
  destruct trigger; intros H; destruct_and?; subst; try reflexivity.
  by destruct s.
Qed.

Lemma wp_fire trigger s d Q :
  in_table trigger s d ->
  Q [Fired trigger s (Some d)] (at_state d) (inr tt) ->
  wp (fire trigger) (at_state s) Q.
Proof. intros Hin HQ. unfold wp. by rewrite (fire_in_table _ _ _ Hin). Qed.

Lemma wp_fire_illegal trigger s Q :
  (forall d, ~ in_table trigger s d) ->
  (forall e, Q [Fired trigger s None] (at_state s) (inl e)) ->
  wp (fire trigger) (at_state s) Q.
Proof.
  intros Hout HQ. unfold wp, fire, at_state. cbn [state_machine].
  rewrite (fire_outside_table _ _ Hout). apply HQ.
Qed.

Lemma proceed_to_login_outside_table s :
  s <> BotStateMachine.start ->
  forall d, ~ in_table BotStateMachine.proceed_to_login s d.
Proof. intros Hs d. rewrite in_table_cases. tauto. Qed.

End Firing.

(** Stepping through [run]: one rule per construct, the quiet
    specification for each collaborator method. *)
Ltac wp_method Hquiet :=
  let evs := fresh "evs" in
  let Hevs := fresh "Hevs" in
  let Hval := fresh "Hval" in
  let e := fresh "e" in
  eapply wp_quiet; [apply Hquiet |];
  intros evs [e | []] Hevs Hval.

Ltac wp_step :=
  cbv beta iota;
  lazymatch goal with
  | |- wp (RobotSpareBinBot.try_except _ _) _ _ => apply wp_try_except
  | |- wp (RobotSpareBinBot.bind _ _) _ _ => apply wp_bind
  | |- wp (RobotSpareBinBot.logging_info _) _ _ => apply wp_logging
  | |- wp (RobotSpareBinBot.logging_error _) _ _ => apply wp_logging
  | |- wp (RobotSpareBinBot.fire _) (RobotSpareBinBot.at_state _) _ =>
      first
        [ eapply wp_fire;
          [ rewrite in_table_cases; first [split; reflexivity | reflexivity] | ]
        | apply wp_fire_illegal;
          [ by apply proceed_to_login_outside_table | intros ? ] ]
  | |- wp (RobotSpareBinBot.open_the_intranet_website _) _ _ =>
      wp_method quiet_open_the_intranet_website
  | |- wp (RobotSpareBinBot.log_in _) _ _ => wp_method quiet_log_in
  | |- wp (RobotSpareBinBot.download_excel_file _) _ _ =>
      wp_method quiet_download_excel_file
  | |- wp (RobotSpareBinBot.fill_form_with_excel_data _) _ _ =>
      wp_method quiet_fill_form_with_excel_data
  | |- wp (RobotSpareBinBot.collect_results _) _ _ =>
      wp_method quiet_collect_results
  | |- wp (RobotSpareBinBot.export_as_pdf _) _ _ =>
      wp_method quiet_export_as_pdf
  | |- wp (RobotSpareBinBot.log_out _) _ _ => wp_method quiet_log_out
  end.


Section RowSubmission.
Import RobotSpareBinBot.
Variable w : World.

Lemma warnings_app tr1 tr2 : warnings (tr1 ++ tr2) = warnings tr1 ++ warnings tr2.
Proof. apply omap_app. Qed.

Lemma submission_attempts_app tr1 tr2 :
  submission_attempts (tr1 ++ tr2)
  = submission_attempts tr1 ++ submission_attempts tr2.
Proof. apply omap_app. Qed.

(** The steps for one row enter the form once and log no warning. *)
Lemma sales_form_steps_observed i sales_rep b :
  submission_attempts (out (sales_form_steps w i sales_rep b)) = [i]
  /\ warnings (out (sales_form_steps w i sales_rep b)) = [].
Proof.
  change (wp (sales_form_steps w i sales_rep) b
            (fun evs _ _ => submission_attempts evs = [i] /\ warnings evs = [])).
  unfold sales_form_steps.
  repeat (cbv beta iota;
          lazymatch goal with
          | |- wp (bind _ _) _ _ => apply wp_bind
          | |- wp (call _ _ _) _ _ => apply wp_call; intros
          | |- wp (getitem _ _) _ _ => apply wp_getitem; intros
          | |- wp (logging_info _) _ _ => apply wp_logging
          end).
  all: cbv beta iota; split; reflexivity.
Qed.
End RowSubmission.

Ltac observe :=
  rewrite ?trigger_calls_app, ?fired_triggers_app, ?export_artifacts_app,
    ?warnings_app, ?submission_attempts_app.

(** Turns what is known of a quiet method's events into equations on
    what can be read off them. *)
Ltac quiet_facts :=
  repeat match goal with
    | H : Forall harmless ?evs |- _ =>
        pose proof (harmless_no_export_artifacts evs H);
        apply harmless_library in H
    | H : Forall library_event ?evs |- _ =>
        pose proof (library_no_trigger_calls evs H);
        pose proof (library_no_fired_triggers evs H);
        clear H
    end.

Ltac rewrite_facts :=
  repeat match goal with
    | H : _ ?evs = [] |- _ => rewrite ?H in *; clear H
    end.

Section Run.
Import RobotSpareBinBot.
Variable w : World.

Lemma init_at_start : init = at_state BotStateMachine.start.
Proof. reflexivity. Qed.

(** When the [try] block of [run] finishes, the machine is in
    [completed]. *)
Lemma run_steps_outcome s :
  wp (run_steps w) (at_state s)
     (fun _ b' r =>
        match r with
        | inr _ => b' = at_state BotStateMachine.completed
        | inl _ => exists s', b' = at_state s'
        end).
Proof.
  unfold run_steps.
  destruct (decide (s = BotStateMachine.start)) as [-> | Hs];
    repeat wp_step; cbv beta iota; eauto.
Qed.

(** The [except] clause of [run] ends in [error], whatever the state. *)
Lemma run_handler e s :
  (logging_error ("Unexpected error occurred: " +:+ str_exn e) ;;
   fire BotStateMachine.handle_error)%py (at_state s)
  = ([ Logged ERROR ("Unexpected error occurred: " +:+ str_exn e);
       Fired BotStateMachine.handle_error s (Some BotStateMachine.error) ],
     at_state BotStateMachine.error, inr tt).
Proof.
  unfold bind, logging_error, logging.
  rewrite (fire_in_table BotStateMachine.handle_error s BotStateMachine.error).
  - reflexivity.
  - rewrite in_table_cases. reflexivity.
Qed.
End Run.

(** C4. Whatever the collaborators do and whatever state the machine is
    in when [run] is called, [run] returns, and it leaves the machine in
    [completed] or in [error]: in [completed] when its [try] block ran to
    the end, in [error] when an exception reached its [except] clause. *)
Theorem run_ends_in_terminal_state w s :
  let b := RobotSpareBinBot.at_state s in
  let r := RobotSpareBinBot.run w b in
  RobotSpareBinBot.val r = inr tt
  /\ (RobotSpareBinBot.current_state (RobotSpareBinBot.st r)
      = BotStateMachine.completed
      \/ RobotSpareBinBot.current_state (RobotSpareBinBot.st r)
         = BotStateMachine.error)
  /\ match RobotSpareBinBot.val (RobotSpareBinBot.run_steps w b) with
     | inr _ => RobotSpareBinBot.current_state (RobotSpareBinBot.st r)
                = BotStateMachine.completed
     | inl _ => RobotSpareBinBot.current_state (RobotSpareBinBot.st r)
                = BotStateMachine.error
     end.
Proof.
  intros b r. subst b r.
  pose proof (run_steps_outcome w s) as Hsteps. unfold wp in Hsteps.
  unfold RobotSpareBinBot.run, RobotSpareBinBot.try_except.
  destruct (RobotSpareBinBot.run_steps w (RobotSpareBinBot.at_state s))
    as [[evs b'] [e | []]]; cbn in Hsteps.
  - destruct Hsteps as [s' ->]. rewrite run_handler. cbn. auto.
  - subst b'. cbn. auto.
Qed.

(** C5. When the download of the spreadsheet raises, the run ends with
    the machine in [error], and [export_results] is never called on the
    machine, let alone fired. *)
Theorem download_failure_ends_in_error w s e :
  raises (RobotSpareBinBot.download_excel_file w) e ->
  let r := RobotSpareBinBot.run w (RobotSpareBinBot.at_state s) in
  RobotSpareBinBot.val r = inr tt
  /\ RobotSpareBinBot.current_state (RobotSpareBinBot.st r)
     = BotStateMachine.error
  /\ BotStateMachine.export_results ∉ (trigger_calls (RobotSpareBinBot.out r)).*1.
Proof.
  intros Hdl r. subst r.
  change (wp (RobotSpareBinBot.run w) (RobotSpareBinBot.at_state s)
            (fun evs b' r =>
               r = inr tt
               /\ RobotSpareBinBot.current_state b' = BotStateMachine.error
               /\ BotStateMachine.export_results ∉ (trigger_calls evs).*1)).
  unfold RobotSpareBinBot.run, RobotSpareBinBot.run_steps.
  destruct (decide (s = BotStateMachine.start)) as [-> | Hs];
    repeat wp_step; cbv beta iota;
    try match goal with
      | H : RobotSpareBinBot.val (RobotSpareBinBot.download_excel_file _ _) = inr _
        |- _ => rewrite Hdl in H; discriminate H
      end;
    quiet_facts; observe; rewrite_facts; cbn;
    (split; [reflexivity | split; [reflexivity |]]);
    rewrite ?elem_of_cons, elem_of_nil; intuition discriminate.
Qed.

Lemma download_failure_ends_in_error_witness :
  RobotSpareBinBot.val
    (RobotSpareBinBot.run download_outage
       (RobotSpareBinBot.at_state BotStateMachine.start)) = inr tt
  /\ RobotSpareBinBot.current_state
       (RobotSpareBinBot.st
          (RobotSpareBinBot.run download_outage
             (RobotSpareBinBot.at_state BotStateMachine.start)))
     = BotStateMachine.error
  /\ BotStateMachine.export_results
     ∉ (trigger_calls
          (RobotSpareBinBot.out
             (RobotSpareBinBot.run download_outage
                (RobotSpareBinBot.at_state BotStateMachine.start)))).*1.
Proof.
  apply (download_failure_ends_in_error download_outage BotStateMachine.start
           (LibraryError "HTTPError: 503 Service Unavailable")).
  intros b. reflexivity.
Defined.

(** A run that fails at sign-out ends in [error] with both export
    artifacts written. *)
Lemma errored_run_keeps_artifacts :
  RobotSpareBinBot.current_state
    (RobotSpareBinBot.st
       (RobotSpareBinBot.run sign_out_timeout RobotSpareBinBot.init))
  = BotStateMachine.error
  /\ export_artifacts
       (RobotSpareBinBot.out
          (RobotSpareBinBot.run sign_out_timeout RobotSpareBinBot.init))
     = ["output/sales_summary.png"; "output/sales_results.pdf"].
Proof. split; vm_compute; reflexivity. Qed.

(** C7, as the code has it. A run in which [export_results] does not
    fire ends in [error] and writes neither the screenshot nor the PDF;
    the artifacts are written only in the export step, after that
    trigger has fired. *)
Theorem no_artifacts_unless_export_fired w s :
  let r := RobotSpareBinBot.run w (RobotSpareBinBot.at_state s) in
  BotStateMachine.export_results ∉ fired_triggers (RobotSpareBinBot.out r) ->
  RobotSpareBinBot.current_state (RobotSpareBinBot.st r) = BotStateMachine.error
  /\ export_artifacts (RobotSpareBinBot.out r) = [].
Proof.
  intros r. subst r.
  change (wp (RobotSpareBinBot.run w) (RobotSpareBinBot.at_state s)
            (fun evs b' r =>
               BotStateMachine.export_results ∉ fired_triggers evs ->
               RobotSpareBinBot.current_state b' = BotStateMachine.error
               /\ export_artifacts evs = [])).
  unfold RobotSpareBinBot.run, RobotSpareBinBot.run_steps.
  destruct (decide (s = BotStateMachine.start)) as [-> | Hs];
    repeat wp_step; cbv beta iota;
    quiet_facts; observe; rewrite_facts; cbn;
    intros Hnot; try (split; reflexivity);
    exfalso; apply Hnot;
    rewrite ?elem_of_cons; auto 10.
Qed.

Lemma no_artifacts_unless_export_fired_witness :
  RobotSpareBinBot.current_state
    (RobotSpareBinBot.st
       (RobotSpareBinBot.run download_outage
          (RobotSpareBinBot.at_state BotStateMachine.start)))
  = BotStateMachine.error
  /\ export_artifacts
       (RobotSpareBinBot.out
          (RobotSpareBinBot.run download_outage
             (RobotSpareBinBot.at_state BotStateMachine.start))) = [].
Proof.
  apply (no_artifacts_unless_export_fired download_outage BotStateMachine.start).
  intros Hin. apply list_elem_of_In in Hin. vm_compute in Hin.
  intuition discriminate.
Defined.

(** A controller that has completed one run does not start the next one
    from [start]: [proceed_to_login] is fired in [completed], raises, and
    the run ends in [error]. *)
Lemma rerun_fires_from_completed :
  head (trigger_calls
          (RobotSpareBinBot.out
             (RobotSpareBinBot.run (cooperative three_rows)
                (RobotSpareBinBot.at_state BotStateMachine.completed))))
  = Some (BotStateMachine.proceed_to_login, BotStateMachine.completed)
  /\ fired_triggers
       (RobotSpareBinBot.out
          (RobotSpareBinBot.run (cooperative three_rows)
             (RobotSpareBinBot.at_state BotStateMachine.completed)))
     = [BotStateMachine.handle_error]
  /\ RobotSpareBinBot.current_state
       (RobotSpareBinBot.st
          (RobotSpareBinBot.run (cooperative three_rows)
             (RobotSpareBinBot.at_state BotStateMachine.completed)))
     = BotStateMachine.error.
Proof. repeat split; vm_compute; reflexivity. Qed.

(** C8, as the code has it. The machine is put in [start] when the
    controller is constructed, not by [run]: [run] fires
    [proceed_to_login] in whatever state the machine is in, and when that
    state is not [start] the trigger raises and the run ends in [error],
    [handle_error] being the only trigger that fired. *)
Theorem run_fires_from_current_state w s :
  let r := RobotSpareBinBot.run w (RobotSpareBinBot.at_state s) in
  RobotSpareBinBot.current_state RobotSpareBinBot.init = BotStateMachine.start
  /\ head (trigger_calls (RobotSpareBinBot.out r))
     = Some (BotStateMachine.proceed_to_login, s)
  /\ (s <> BotStateMachine.start ->
      RobotSpareBinBot.val r = inr tt
      /\ RobotSpareBinBot.current_state (RobotSpareBinBot.st r)
         = BotStateMachine.error
      /\ fired_triggers (RobotSpareBinBot.out r) = [BotStateMachine.handle_error]).
Proof.
  intros r. subst r. split; [reflexivity |].
  change (wp (RobotSpareBinBot.run w) (RobotSpareBinBot.at_state s)
            (fun evs b' r =>
               head (trigger_calls evs)
               = Some (BotStateMachine.proceed_to_login, s)
               /\ (s <> BotStateMachine.start ->
                   r = inr tt
                   /\ RobotSpareBinBot.current_state b' = BotStateMachine.error
                   /\ fired_triggers evs = [BotStateMachine.handle_error]))).
  unfold RobotSpareBinBot.run, RobotSpareBinBot.run_steps.
  destruct (decide (s = BotStateMachine.start)) as [-> | Hs];
    repeat wp_step; cbv beta iota;
    quiet_facts; observe; rewrite_facts; cbn;
    (split; [reflexivity | intros Hne; by repeat split]).
Qed.

Lemma run_fires_from_current_state_witness :
  RobotSpareBinBot.val
    (RobotSpareBinBot.run sign_out_timeout
       (RobotSpareBinBot.at_state BotStateMachine.error)) = inr tt
  /\ RobotSpareBinBot.current_state
       (RobotSpareBinBot.st
          (RobotSpareBinBot.run sign_out_timeout
             (RobotSpareBinBot.at_state BotStateMachine.error)))
     = BotStateMachine.error
  /\ fired_triggers
       (RobotSpareBinBot.out
          (RobotSpareBinBot.run sign_out_timeout
             (RobotSpareBinBot.at_state BotStateMachine.error)))
     = [BotStateMachine.handle_error].
Proof.
  apply (run_fires_from_current_state sign_out_timeout BotStateMachine.error).
  discriminate.
Defined.

(** C9. [fill_and_submit_sales_form] returns for every row, whatever its
    steps do: when they raise, be it a library call or the lookup of a
    column the row lacks, the exception is logged as a warning and goes
    no further.  The controller, and with it the workflow state, is left
    as it was. *)
Theorem fill_and_submit_sales_form_absorbs w i sales_rep b :
  let steps := RobotSpareBinBot.sales_form_steps w i sales_rep b in
  RobotSpareBinBot.fill_and_submit_sales_form w i sales_rep b
  = (RobotSpareBinBot.out steps
     ++ match RobotSpareBinBot.val steps with
        | inl e =>
            [Logged WARNING ("Error submitting sales form: " +:+ str_exn e)]
        | inr _ => []
        end,
     b, inr tt).
Proof.
  intros steps. subst steps.
  destruct (fill_and_submit_sales_form_cases w i sales_rep b)
    as [[Hv ->] | (e & Hv & ->)]; rewrite Hv; [| reflexivity].
  by rewrite app_nil_r.
Qed.

(** A row without its [Sales] column: the lookup raises [KeyError]
    after three fields have been filled, and the method still returns. *)
Example missing_column_is_absorbed :
  RobotSpareBinBot.fill_and_submit_sales_form (cooperative []) 0
    (delete "Sales" (sample_row "Lisa" "Clark" 25000 13016))
    RobotSpareBinBot.init
  = ([ Called (In_fill_and_submit_sales_form 0) browser_page None;
       Called (In_fill_and_submit_sales_form 0)
         (page_fill "#firstname" (VStr "Lisa")) None;
       Called (In_fill_and_submit_sales_form 0)
         (page_fill "#lastname" (VStr "Clark")) None;
       Called (In_fill_and_submit_sales_form 0)
         (page_select_option "#salestarget" "25000") None;
       Logged WARNING "Error submitting sales form: 'Sales'" ],
     RobotSpareBinBot.init, inr tt).
Proof. vm_compute. reflexivity. Qed.

Section Cooperative.
Import RobotSpareBinBot.
Variable w : World.
Hypothesis Hcoop : cooperative_outside_rows w.

Lemma wp_exact {A} (m : M A) b evs b' r (Q : list event -> t -> exn + A -> Prop) :
  m b = (evs, b', r) -> Q evs b' r -> wp m b Q.
Proof. intros Hm HQ. unfold wp. by rewrite Hm. Qed.

Ltac coop :=
  unfold try_except, bind, call, logging_info, logging;
  rewrite ?Hcoop by (intros; discriminate).

Lemma open_the_intranet_website_cooperative b :
  open_the_intranet_website w b
  = ([ Called In_open_the_intranet_website (browser_configure 100) None;
       Called In_open_the_intranet_website
         (browser_goto "https://robotsparebinindustries.com/") None;
       Logged INFO "Navigated to intranet website." ], b, inr tt).
Proof using Hcoop. unfold open_the_intranet_website. coop. reflexivity. Qed.

Lemma log_in_cooperative b :
  log_in w b
  = ([ Called In_log_in browser_page None;
       Called In_log_in (page_fill "#username" (USERNAME w)) None;
       Called In_log_in (page_fill "#password" (PASSWORD w)) None;
       Called In_log_in (page_click "button:text('Log in')") None;
       Logged INFO "Logged in successfully." ], b, inr tt).
Proof using Hcoop. unfold log_in. coop. reflexivity. Qed.

Lemma download_excel_file_cooperative b :
  download_excel_file w b
  = ([ Called In_download_excel_file HTTP_new None;
       Called In_download_excel_file
         (http_download
            "https://robotsparebinindustries.com/SalesData.xlsx" true) None;
       Logged INFO "Excel file downloaded successfully." ], b, inr tt).
Proof using Hcoop. unfold download_excel_file. coop. reflexivity. Qed.

Lemma for_row_in_result i rows b :
  for_row_in w i rows b = (out (for_row_in w i rows b), b, inr tt).
Proof.
  destruct (quiet_for_row_in w rows i b) as [Hst _].
  destruct (returns_for_row_in w rows i b) as [[] Hval].
  destruct (for_row_in w i rows b) as [[evs b'] r].
  cbn in *. by subst.
Qed.

Lemma fill_form_with_excel_data_cooperative b :
  fill_form_with_excel_data w b
  = ([ Called In_fill_form_with_excel_data Files_new None;
       Called In_fill_form_with_excel_data
         (excel_open_workbook "SalesData.xlsx") None;
       Called In_fill_form_with_excel_data
         (excel_read_worksheet_as_table "data" true) None ]
     ++ out (for_row_in w 0 (worksheet w) b)
     ++ [ Called In_fill_form_with_excel_data excel_close_workbook None ],
     b, inr tt).
Proof using Hcoop.
  unfold fill_form_with_excel_data. coop.
  rewrite (for_row_in_result 0 (worksheet w) b). reflexivity.
Qed.

Lemma collect_results_cooperative b :
  collect_results w b
  = ([ Called In_collect_results browser_page None;
       Called In_collect_results
         (page_screenshot "output/sales_summary.png") None;
       Logged INFO "Screenshot captured." ], b, inr tt).
Proof using Hcoop. unfold collect_results. coop. reflexivity. Qed.

Lemma export_as_pdf_cooperative b :
  export_as_pdf w b
  = ([ Called In_export_as_pdf browser_page None;
       Called In_export_as_pdf (page_locator_inner_html "#sales-results") None;
       Called In_export_as_pdf PDF_new None;
       Called In_export_as_pdf
         (pdf_html_to_pdf (sales_results_html w) "output/sales_results.pdf")
         None;
       Logged INFO "Sales results exported to PDF." ], b, inr tt).
Proof using Hcoop. unfold export_as_pdf. coop. reflexivity. Qed.

Lemma log_out_cooperative b :
  log_out w b
  = ([ Called In_log_out browser_page None;
       Called In_log_out (page_click "text=Log out") None;
       Logged INFO "Logged out successfully." ], b, inr tt).
Proof using Hcoop. unfold log_out. coop. reflexivity. Qed.

Ltac coop_step :=
  cbv beta iota;
  lazymatch goal with
  | |- wp (open_the_intranet_website _) _ _ =>
      eapply wp_exact; [apply open_the_intranet_website_cooperative |]
  | |- wp (log_in _) _ _ => eapply wp_exact; [apply log_in_cooperative |]
  | |- wp (download_excel_file _) _ _ =>
      eapply wp_exact; [apply download_excel_file_cooperative |]
  | |- wp (fill_form_with_excel_data _) _ _ =>
      eapply wp_exact; [apply fill_form_with_excel_data_cooperative |]
  | |- wp (collect_results _) _ _ =>
      eapply wp_exact; [apply collect_results_cooperative |]
  | |- wp (export_as_pdf _) _ _ =>
      eapply wp_exact; [apply export_as_pdf_cooperative |]
  | |- wp (log_out _) _ _ => eapply wp_exact; [apply log_out_cooperative |]
  | |- _ => wp_step
  end.

(** With cooperative collaborators a run from [start] goes through all
    five steps; only the events of the rows depend on the data. *)
Lemma run_cooperative :
  run w (at_state BotStateMachine.start)
  = (trace_before_rows w
     ++ out (for_row_in w 0 (worksheet w)
               (at_state BotStateMachine.process_data))
     ++ trace_after_rows w,
     at_state BotStateMachine.completed, inr tt).
Proof using Hcoop.
  enough (wp (run w) (at_state BotStateMachine.start)
            (fun evs b' r =>
               evs = trace_before_rows w
                     ++ out (for_row_in w 0 (worksheet w)
                               (at_state BotStateMachine.process_data))
                     ++ trace_after_rows w
               /\ b' = at_state BotStateMachine.completed /\ r = inr tt))
    as Hwp.
  { unfold wp, out, st, val in Hwp.
    destruct (run w (at_state BotStateMachine.start)) as [[evs b'] r].
    cbn in Hwp. by destruct Hwp as (-> & -> & ->). }
  unfold run, run_steps. repeat coop_step. cbv beta iota.
  split; [| done].
  unfold trace_before_rows, trace_after_rows. cbn [app].
  rewrite <- !app_assoc. reflexivity.
Qed.
End Cooperative.

Section Rows.
Import RobotSpareBinBot.
Variable w : World.

Lemma fill_and_submit_sales_form_returns i sales_rep b :
  returns (sales_form_steps w i sales_rep) ->
  fill_and_submit_sales_form w i sales_rep b
  = (out (sales_form_steps w i sales_rep b), b, inr tt).
Proof.
  intros Hret. destruct (Hret b) as [[] Hval].
  destruct (fill_and_submit_sales_form_cases w i sales_rep b)
    as [[_ ->] | (e & He & _)]; [done | congruence].
Qed.

Lemma fill_and_submit_sales_form_raises i sales_rep b e :
  raises (sales_form_steps w i sales_rep) e ->
  fill_and_submit_sales_form w i sales_rep b
  = (out (sales_form_steps w i sales_rep b)
     ++ [Logged WARNING ("Error submitting sales form: " +:+ str_exn e)],
     b, inr tt).
Proof.
  intros Hraise. specialize (Hraise b).
  destruct (fill_and_submit_sales_form_cases w i sales_rep b)
    as [[Hval _] | (e' & He' & ->)]; [congruence |].
  rewrite Hraise in He'. by injection He' as ->.
Qed.

Lemma sales_form_steps_no_triggers i sales_rep b :
  fired_triggers (out (sales_form_steps w i sales_rep b)) = [].
Proof.
  destruct (quiet_sales_form_steps w i sales_rep b) as [_ Hq].
  by apply library_no_fired_triggers, harmless_library.
Qed.
End Rows.

(** C3. On a freshly constructed controller, when every library call
    returns, the run ends with the machine in [completed], and the
    triggers called on the machine are [proceed_to_login],
    [process_sales_data], [export_results], [proceed_to_log_out] and
    [complete_task], in that order, once each, each from its declared
    source, and each fires. *)
Theorem run_success w :
  (forall ctx op, outcome w ctx op = None) ->
  let r := RobotSpareBinBot.run w RobotSpareBinBot.init in
  RobotSpareBinBot.val r = inr tt
  /\ RobotSpareBinBot.current_state (RobotSpareBinBot.st r)
     = BotStateMachine.completed
  /\ trigger_calls (RobotSpareBinBot.out r)
     = [ (BotStateMachine.proceed_to_login, BotStateMachine.start);
         (BotStateMachine.process_sales_data, BotStateMachine.login);
         (BotStateMachine.export_results, BotStateMachine.process_data);
         (BotStateMachine.proceed_to_log_out, BotStateMachine.export);
         (BotStateMachine.complete_task, BotStateMachine.log_out) ]
  /\ fired_triggers (RobotSpareBinBot.out r)
     = [ BotStateMachine.proceed_to_login;
         BotStateMachine.process_sales_data;
         BotStateMachine.export_results;
         BotStateMachine.proceed_to_log_out;
         BotStateMachine.complete_task ].
Proof.
  intros Hall r. subst r.
  assert (cooperative_outside_rows w) as Hcoop by (intros ctx op _; apply Hall).
  rewrite init_at_start, (run_cooperative w Hcoop).
  destruct (quiet_for_row_in w (worksheet w) 0
              (RobotSpareBinBot.at_state BotStateMachine.process_data))
    as [_ Hrows].
  cbn [RobotSpareBinBot.out RobotSpareBinBot.st RobotSpareBinBot.val fst snd].
  quiet_facts. observe. rewrite_facts.
  repeat split; reflexivity.
Qed.

Lemma run_success_witness :
  RobotSpareBinBot.val
    (RobotSpareBinBot.run (cooperative three_rows) RobotSpareBinBot.init)
  = inr tt
  /\ RobotSpareBinBot.current_state
       (RobotSpareBinBot.st
          (RobotSpareBinBot.run (cooperative three_rows) RobotSpareBinBot.init))
     = BotStateMachine.completed
  /\ trigger_calls
       (RobotSpareBinBot.out
          (RobotSpareBinBot.run (cooperative three_rows) RobotSpareBinBot.init))
     = [ (BotStateMachine.proceed_to_login, BotStateMachine.start);
         (BotStateMachine.process_sales_data, BotStateMachine.login);
         (BotStateMachine.export_results, BotStateMachine.process_data);
         (BotStateMachine.proceed_to_log_out, BotStateMachine.export);
         (BotStateMachine.complete_task, BotStateMachine.log_out) ]
  /\ fired_triggers
       (RobotSpareBinBot.out
          (RobotSpareBinBot.run (cooperative three_rows) RobotSpareBinBot.init))
     = [ BotStateMachine.proceed_to_login;
         BotStateMachine.process_sales_data;
         BotStateMachine.export_results;
         BotStateMachine.proceed_to_log_out;
         BotStateMachine.complete_task ].
Proof.
  apply (run_success (cooperative three_rows)).
  intros ctx op. reflexivity.
Defined.

(** C6. Three rows, of which only the second fails to be submitted: the
    form is entered for the rows at positions 0, 1 and 2, in that order
    and once each; one warning is logged, carrying the exception of the
    second row, right after that row's steps and before the third row's;
    the run goes on, [export_results] fires with the other four
    triggers, and the machine ends in [completed]. *)
Theorem second_row_failure_is_absorbed w r1 r2 r3 e :
  cooperative_outside_rows w ->
  worksheet w = [r1; r2; r3] ->
  returns (RobotSpareBinBot.sales_form_steps w 0 r1) ->
  raises (RobotSpareBinBot.sales_form_steps w 1 r2) e ->
  returns (RobotSpareBinBot.sales_form_steps w 2 r3) ->
  let b := RobotSpareBinBot.at_state BotStateMachine.process_data in
  let r := RobotSpareBinBot.run w RobotSpareBinBot.init in
  RobotSpareBinBot.val r = inr tt
  /\ RobotSpareBinBot.current_state (RobotSpareBinBot.st r)
     = BotStateMachine.completed
  /\ RobotSpareBinBot.out r
     = trace_before_rows w
       ++ RobotSpareBinBot.out (RobotSpareBinBot.sales_form_steps w 0 r1 b)
       ++ RobotSpareBinBot.out (RobotSpareBinBot.sales_form_steps w 1 r2 b)
       ++ [Logged WARNING ("Error submitting sales form: " +:+ str_exn e)]
       ++ RobotSpareBinBot.out (RobotSpareBinBot.sales_form_steps w 2 r3 b)
       ++ trace_after_rows w
  /\ submission_attempts (RobotSpareBinBot.out r) = [0; 1; 2]
  /\ warnings (RobotSpareBinBot.out r)
     = ["Error submitting sales form: " +:+ str_exn e]
  /\ fired_triggers (RobotSpareBinBot.out r)
     = [ BotStateMachine.proceed_to_login;
         BotStateMachine.process_sales_data;
         BotStateMachine.export_results;
         BotStateMachine.proceed_to_log_out;
         BotStateMachine.complete_task ].
Proof.
  intros Hcoop Hrows H1 H2 H3 b r.
  assert (r = (trace_before_rows w
               ++ RobotSpareBinBot.out (RobotSpareBinBot.sales_form_steps w 0 r1 b)
               ++ RobotSpareBinBot.out (RobotSpareBinBot.sales_form_steps w 1 r2 b)
               ++ [Logged WARNING ("Error submitting sales form: " +:+ str_exn e)]
               ++ RobotSpareBinBot.out (RobotSpareBinBot.sales_form_steps w 2 r3 b)
               ++ trace_after_rows w,
               RobotSpareBinBot.at_state BotStateMachine.completed,
               inr tt)) as ->.
  { subst r. rewrite init_at_start, (run_cooperative w Hcoop), Hrows.
    fold b. cbn [RobotSpareBinBot.for_row_in]. unfold RobotSpareBinBot.bind.
    rewrite (fill_and_submit_sales_form_returns w 0 r1 b H1). cbv beta iota.
    rewrite (fill_and_submit_sales_form_raises w 1 r2 b e H2). cbv beta iota.
    rewrite (fill_and_submit_sales_form_returns w 2 r3 b H3). cbv beta iota.
    cbn [RobotSpareBinBot.ret RobotSpareBinBot.out fst].
    by rewrite app_nil_r, <- !app_assoc. }
  cbn [RobotSpareBinBot.out RobotSpareBinBot.st RobotSpareBinBot.val fst snd].
  destruct (sales_form_steps_observed w 0 r1 b) as [Ha1 Hw1].
  destruct (sales_form_steps_observed w 1 r2 b) as [Ha2 Hw2].
  destruct (sales_form_steps_observed w 2 r3 b) as [Ha3 Hw3].
  observe.
  rewrite Ha1, Ha2, Ha3, Hw1, Hw2, Hw3, !sales_form_steps_no_triggers.
  repeat split; reflexivity.
Qed.

Lemma second_row_failure_is_absorbed_witness :
  submission_attempts
    (RobotSpareBinBot.out
       (RobotSpareBinBot.run second_row_timeout RobotSpareBinBot.init))
  = [0; 1; 2]
  /\ warnings
       (RobotSpareBinBot.out
          (RobotSpareBinBot.run second_row_timeout RobotSpareBinBot.init))
     = ["Error submitting sales form: Timeout 30000ms exceeded."]
  /\ RobotSpareBinBot.current_state
       (RobotSpareBinBot.st
          (RobotSpareBinBot.run second_row_timeout RobotSpareBinBot.init))
     = BotStateMachine.completed.
Proof.
  destruct (second_row_failure_is_absorbed second_row_timeout
              (sample_row "Lisa" "Clark" 25000 13016)
              (sample_row "Darla" "Martin" 30000 14923)
              (sample_row "Tanya" "Shah" 35000 38921)
              (LibraryError "Timeout 30000ms exceeded."))
    as (_ & Hst & _ & Hatt & Hwarn & _).
  - intros ctx op Hne. cbn. destruct (decide _) as [-> |]; [| reflexivity].
    by destruct (Hne 1).
  - reflexivity.
  - intros b. exists tt. vm_compute. reflexivity.
  - intros b. vm_compute. reflexivity.
  - intros b. exists tt. vm_compute. reflexivity.
  - exact (conj Hatt (conj Hwarn Hst)).
Defined.


(** * Beyond the claims *)

Section RowLoop.
Import RobotSpareBinBot.
Variable w : World.

Lemma fill_and_submit_sales_form_observed i sales_rep b :
  submission_attempts (out (fill_and_submit_sales_form w i sales_rep b)) = [i]
  /\ warnings (out (fill_and_submit_sales_form w i sales_rep b))
     = match val (sales_form_steps w i sales_rep b) with
       | inl e => [warning_for e]
       | inr _ => []
       end.
Proof.
  destruct (sales_form_steps_observed w i sales_rep b) as [Ha Hw].
  destruct (fill_and_submit_sales_form_cases w i sales_rep b)
    as [[Hv ->] | (e & Hv & ->)]; rewrite Hv; cbn [out fst]; [done |].
  rewrite submission_attempts_app, warnings_app, Ha, Hw. done.
Qed.

Lemma for_row_in_cons i row rest b :
  out (for_row_in w i (row :: rest) b)
  = out (fill_and_submit_sales_form w i row b)
    ++ out (for_row_in w (S i) rest b).
Proof.
  cbn [for_row_in]. unfold bind.
  destruct (fill_and_submit_sales_form_cases w i row b)
    as [[_ ->] | (e & _ & ->)];
    destruct (for_row_in w (S i) rest b) as [[evs b'] r]; reflexivity.
Qed.
End RowLoop.

Section MoreRules.
Import RobotSpareBinBot.

Lemma result_eta {A} (r : list event * t * (exn + A)) :
  r = (out r, st r, val r).
Proof. by destruct r as [[evs b] v]. Qed.

Lemma wp_raise {A} e b (Q : list event -> t -> exn + A -> Prop) :
  Q [] b (inl e) -> wp (raise e) b Q.
Proof. done. Qed.

Lemma errors_app tr1 tr2 : errors (tr1 ++ tr2) = errors tr1 ++ errors tr2.
Proof. apply omap_app. Qed.

Lemma rejected_triggers_app tr1 tr2 :
  rejected_triggers (tr1 ++ tr2) = rejected_triggers tr1 ++ rejected_triggers tr2.
Proof. apply omap_app. Qed.

Lemma library_calls_app tr1 tr2 :
  library_calls (tr1 ++ tr2) = library_calls tr1 ++ library_calls tr2.
Proof. apply omap_app. Qed.

Lemma library_no_rejected_triggers evs :
  Forall library_event evs -> rejected_triggers evs = [].
Proof.
  induction 1 as [| ev evs Hev _ IH]; [done |].
  destruct ev; cbn in *; done.
Qed.

Lemma returned_from_library ctx calls :
  Forall (returned_from ctx) calls -> Forall library_event calls.
Proof.
  intros H. eapply Forall_impl; [exact H |]. by intros ev [op ->].
Qed.

Lemma returned_from_no_errors ctx calls :
  Forall (returned_from ctx) calls -> errors calls = [].
Proof.
  induction 1 as [| ev evs [op ->] _ IH]; [done |]. exact IH.
Qed.

Lemma row_event_harmless ev : row_event ev -> harmless ev.
Proof. by destruct ev as [[] | [] |]. Qed.

Lemma row_events_no_errors evs : Forall row_event evs -> errors evs = [].
Proof.
  induction 1 as [| ev evs Hev _ IH]; [done |].
  by destruct ev as [[] | |].
Qed.

Lemma row_events_library evs : Forall row_event evs -> Forall library_event evs.
Proof.
  intros H. eapply Forall_impl; [exact H |].
  intros ev Hev. by apply harmless_library_event, row_event_harmless.
Qed.
End MoreRules.

Section RowEvents.
Import RobotSpareBinBot.
Variable w : World.

Lemma row_events_sales_form_steps i sales_rep :
  quiet row_event (sales_form_steps w i sales_rep).
Proof. unfold sales_form_steps. quiet_steps. Qed.

Lemma row_events_fill_and_submit_sales_form i sales_rep :
  quiet row_event (fill_and_submit_sales_form w i sales_rep).
Proof.
  unfold fill_and_submit_sales_form.
  apply quiet_try_except; [apply row_events_sales_form_steps |].
  quiet_steps.
Qed.

Lemma row_events_for_row_in rows : forall i, quiet row_event (for_row_in w i rows).
Proof.
  induction rows as [| row rest IH]; intros i; cbn [for_row_in].
  - apply quiet_ret.
  - apply quiet_bind; [apply row_events_fill_and_submit_sales_form | auto].
Qed.

(** What the loop over the worksheet does, for any rows. *)
Lemma for_row_in_observed rows : forall i b,
  submission_attempts (out (for_row_in w i rows b)) = seq i (length rows)
  /\ warnings (out (for_row_in w i rows b))
     = map warning_for (row_exceptions w i rows b).
Proof.
  induction rows as [| row rest IH]; intros i b; [done |].
  destruct (IH (S i) b) as (IHa & IHw).
  rewrite for_row_in_cons, submission_attempts_app, warnings_app, IHa, IHw.
  destruct (fill_and_submit_sales_form_observed w i row b) as [-> ->].
  split; [reflexivity |].
  cbn [row_exceptions].
  destruct (val (sales_form_steps w i row b)); reflexivity.
Qed.
End RowEvents.

(** X1. The loop over the worksheet enters the form for every row, once
    each and in worksheet order, whatever happens to the rows before;
    it logs one warning per row whose steps raise, in row order and
    carrying that row's exception; it never raises and leaves the
    controller as it was. *)
Theorem every_row_is_attempted w rows i b :
  RobotSpareBinBot.st (RobotSpareBinBot.for_row_in w i rows b) = b
  /\ RobotSpareBinBot.val (RobotSpareBinBot.for_row_in w i rows b) = inr tt
  /\ submission_attempts
       (RobotSpareBinBot.out (RobotSpareBinBot.for_row_in w i rows b))
     = seq i (length rows)
  /\ warnings (RobotSpareBinBot.out (RobotSpareBinBot.for_row_in w i rows b))
     = map warning_for (row_exceptions w i rows b).
Proof.
  destruct (for_row_in_observed w rows i b) as [Ha Hw].
  rewrite (for_row_in_result w i rows b) at 1 2.
  repeat split; assumption.
Qed.

(** Stepping through a method call by call. *)
Ltac call_step :=
  cbv beta iota;
  lazymatch goal with
  | |- wp (RobotSpareBinBot.try_except _ _) _ _ => apply wp_try_except
  | |- wp (RobotSpareBinBot.bind _ _) _ _ => apply wp_bind
  | |- wp (RobotSpareBinBot.call _ _ _) _ _ =>
      apply wp_call; [intros ? ? | intros ?]
  | |- wp (RobotSpareBinBot.getitem _ _) _ _ =>
      apply wp_getitem; [intros ? | intros ? ?]
  | |- wp (RobotSpareBinBot.logging_info _) _ _ => apply wp_logging
  | |- wp (RobotSpareBinBot.logging_warning _) _ _ => apply wp_logging
  | |- wp (RobotSpareBinBot.logging_error _) _ _ => apply wp_logging
  | |- wp (RobotSpareBinBot.raise _) _ _ => apply wp_raise
  end.

(** Closes a leaf of [logs_and_reraises] once the calls that returned
    are given. *)
Ltac shape_with calls :=
  exists calls; split;
  [ repeat constructor; eexists; reflexivity
  | first [ left; reflexivity | right; do 2 eexists; reflexivity ] ].

Ltac shape :=
  cbv beta iota; cbn [app];
  lazymatch goal with
  | |- exists _, _ /\ (((?evs, _, inr _) = _) \/ _) =>
      let calls := eval cbn in (removelast evs) in shape_with calls
  | |- exists _, _ /\ (((?evs, _, inl _) = _) \/ _) =>
      let calls := eval cbn in (removelast (removelast evs)) in shape_with calls
  end.

Lemma logs_and_reraises_wp ctx prefix info (m : RobotSpareBinBot.M unit) :
  (forall b,
     wp m b (fun evs b' r =>
               exists calls,
                 Forall (returned_from ctx) calls
                 /\ ((evs, b', r) = (calls ++ [Logged INFO info], b, inr tt)
                     \/ exists op e,
                          (evs, b', r)
                          = (calls ++ [ Called ctx op (Some e);
                                        Logged ERROR (prefix +:+ str_exn e) ],
                             b, inl e)))) ->
  logs_and_reraises ctx prefix info m.
Proof.
  intros H b. specialize (H b). unfold wp in H.
  by rewrite <- result_eta in H.
Qed.

Ltac logs_and_reraises_tac := apply logs_and_reraises_wp; intros ?.

Section Reraising.
Import RobotSpareBinBot.
Variable w : World.

Lemma open_the_intranet_website_shape :
  logs_and_reraises In_open_the_intranet_website
    "Error opening the website: " "Navigated to intranet website."
    (open_the_intranet_website w).
Proof.
  logs_and_reraises_tac. unfold open_the_intranet_website.
  repeat call_step; shape.
Qed.

Lemma log_in_shape :
  logs_and_reraises In_log_in "Login failed: " "Logged in successfully."
    (log_in w).
Proof. logs_and_reraises_tac. unfold log_in. repeat call_step; shape. Qed.

Lemma download_excel_file_shape :
  logs_and_reraises In_download_excel_file
    "Failed to download Excel file: " "Excel file downloaded successfully."
    (download_excel_file w).
Proof.
  logs_and_reraises_tac. unfold download_excel_file.
  repeat call_step; shape.
Qed.

Lemma collect_results_shape :
  logs_and_reraises In_collect_results
    "Error taking screenshot: " "Screenshot captured." (collect_results w).
Proof.
  logs_and_reraises_tac. unfold collect_results. repeat call_step; shape.
Qed.

Lemma export_as_pdf_shape :
  logs_and_reraises In_export_as_pdf
    "Error exporting PDF: " "Sales results exported to PDF." (export_as_pdf w).
Proof.
  logs_and_reraises_tac. unfold export_as_pdf. repeat call_step; shape.
Qed.

Lemma log_out_shape :
  logs_and_reraises In_log_out
    "Error during log out: " "Logged out successfully." (log_out w).
Proof. logs_and_reraises_tac. unfold log_out. repeat call_step; shape. Qed.
End Reraising.

(** X2. The six methods that wrap library calls in [try]/[except] and
    re-raise behave alike.  Their calls are made in order, each only
    after the previous one returned.  When all return, the method logs
    its success message and returns.  When one raises, no further call
    is made, the method logs its own error message followed by the text
    of the exception, and raises that same exception.  The controller is
    left as it was. *)
Theorem collaborator_methods_log_and_reraise w :
  logs_and_reraises In_open_the_intranet_website
    "Error opening the website: " "Navigated to intranet website."
    (RobotSpareBinBot.open_the_intranet_website w)
  /\ logs_and_reraises In_log_in "Login failed: " "Logged in successfully."
       (RobotSpareBinBot.log_in w)
  /\ logs_and_reraises In_download_excel_file
       "Failed to download Excel file: " "Excel file downloaded successfully."
       (RobotSpareBinBot.download_excel_file w)
  /\ logs_and_reraises In_collect_results
       "Error taking screenshot: " "Screenshot captured."
       (RobotSpareBinBot.collect_results w)
  /\ logs_and_reraises In_export_as_pdf
       "Error exporting PDF: " "Sales results exported to PDF."
       (RobotSpareBinBot.export_as_pdf w)
  /\ logs_and_reraises In_log_out
       "Error during log out: " "Logged out successfully."
       (RobotSpareBinBot.log_out w).
Proof.
  repeat split.
  - apply open_the_intranet_website_shape.
  - apply log_in_shape.
  - apply download_excel_file_shape.
  - apply collect_results_shape.
  - apply export_as_pdf_shape.
  - apply log_out_shape.
Qed.

Section Reports.
Import RobotSpareBinBot.
Variable w : World.

Lemma logs_and_reraises_reports ctx prefix info (m : M unit) :
  logs_and_reraises ctx prefix info m -> reports prefix m.
Proof.
  intros H b. destruct (H b) as (calls & Hcalls & [Heq | (op & e & Heq)]);
    eexists; (split; [| first [ left; split; [exact Heq |]
                               | right; eexists; split; [exact Heq |] ]]).
  - apply Forall_app. split; [by eapply returned_from_library |].
    by repeat constructor.
  - by rewrite errors_app, (returned_from_no_errors _ _ Hcalls).
  - apply Forall_app. split; [by eapply returned_from_library |].
    by repeat constructor.
  - by rewrite errors_app, (returned_from_no_errors _ _ Hcalls).
Qed.

Lemma reports_wp prefix (m : M unit) :
  (forall b,
     wp m b (fun evs b' r =>
               Forall library_event evs /\ b' = b
               /\ match r with
                  | inr _ => errors evs = []
                  | inl e => errors evs = [prefix +:+ str_exn e]
                  end)) ->
  reports prefix m.
Proof.
  intros H b. specialize (H b). unfold wp in H.
  destruct (m b) as [[evs b'] [e | []]]; cbn in H;
    destruct H as (Hlib & -> & Herr); exists evs; (split; [done |]).
  - right. by exists e.
  - by left.
Qed.

Lemma wp_for_row_in i rows b (Q : list event -> t -> exn + unit -> Prop) :
  (forall evs, Forall row_event evs ->
               evs = out (for_row_in w i rows b) -> Q evs b (inr tt)) ->
  wp (for_row_in w i rows) b Q.
Proof.
  intros HQ. unfold wp.
  destruct (row_events_for_row_in w rows i b) as [Hst Hevs].
  rewrite (for_row_in_result w i rows b) at 2 3. cbn [st val fst snd].
  by apply HQ.
Qed.

Lemma fill_form_with_excel_data_reports :
  reports "Error processing Excel file: " (fill_form_with_excel_data w).
Proof.
  apply reports_wp. intros b. unfold fill_form_with_excel_data.
  repeat first [ call_step
               | apply wp_for_row_in;
                 let evs := fresh "rows_evs" in
                 let H := fresh "Hrows" in intros evs H _;
                 apply row_events_library in H as ?;
                 apply row_events_no_errors in H ].
  all: cbv beta iota; split; [| split; [reflexivity |]].
  all: rewrite ?Forall_app, ?errors_app; repeat split;
    try assumption; try (by repeat constructor).
  all: rewrite ?Hrows; reflexivity.
Qed.
End Reports.

Ltac form_step :=
  first [ call_step
        | apply wp_for_row_in;
          let evs := fresh "rows_evs" in
          let H := fresh "Hrows" in
          let E := fresh "Erows" in intros evs H E ].

(** X3. When creating the spreadsheet reader, opening the workbook or
    reading the worksheet raises, [fill_form_with_excel_data] raises
    without entering the form for any row and without ever calling
    [close_workbook]: the [except] clause logs and re-raises, and there is
    no [finally]. *)
Theorem workbook_left_open_on_failure w b :
  outcome w In_fill_form_with_excel_data Files_new <> None
  \/ outcome w In_fill_form_with_excel_data
       (excel_open_workbook "SalesData.xlsx") <> None
  \/ outcome w In_fill_form_with_excel_data
       (excel_read_worksheet_as_table "data" true) <> None ->
  let r := RobotSpareBinBot.fill_form_with_excel_data w b in
  (exists e, RobotSpareBinBot.val r = inl e)
  /\ submission_attempts (RobotSpareBinBot.out r) = []
  /\ (In_fill_form_with_excel_data, excel_close_workbook)
     ∉ library_calls (RobotSpareBinBot.out r).
Proof.
  intros Hfail r. subst r.
  change (wp (RobotSpareBinBot.fill_form_with_excel_data w) b
            (fun evs _ r =>
               (exists e, r = inl e)
               /\ submission_attempts evs = []
               /\ (In_fill_form_with_excel_data, excel_close_workbook)
                  ∉ library_calls evs)).
  unfold RobotSpareBinBot.fill_form_with_excel_data.
  repeat form_step; cbv beta iota;
    try (exfalso; destruct Hfail as [? | [? | ?]]; congruence).
  all: split; [by eexists | split; [reflexivity |]].
  all: cbn; rewrite ?elem_of_cons, elem_of_nil; intuition discriminate.
Qed.

Lemma workbook_left_open_on_failure_witness :
  (exists e,
     RobotSpareBinBot.val
       (RobotSpareBinBot.fill_form_with_excel_data
          (failing_in In_fill_form_with_excel_data
             (LibraryError "FileNotFoundError: SalesData.xlsx") three_rows)
          RobotSpareBinBot.init) = inl e)
  /\ submission_attempts
       (RobotSpareBinBot.out
          (RobotSpareBinBot.fill_form_with_excel_data
             (failing_in In_fill_form_with_excel_data
                (LibraryError "FileNotFoundError: SalesData.xlsx") three_rows)
             RobotSpareBinBot.init)) = []
  /\ (In_fill_form_with_excel_data, excel_close_workbook)
     ∉ library_calls
         (RobotSpareBinBot.out
            (RobotSpareBinBot.fill_form_with_excel_data
               (failing_in In_fill_form_with_excel_data
                  (LibraryError "FileNotFoundError: SalesData.xlsx") three_rows)
               RobotSpareBinBot.init)).
Proof.
  apply (workbook_left_open_on_failure
           (failing_in In_fill_form_with_excel_data
              (LibraryError "FileNotFoundError: SalesData.xlsx") three_rows)
           RobotSpareBinBot.init).
  left. discriminate.
Defined.

(** X4. Once the worksheet has been read, no row can keep the workbook
    from being closed: the form is entered for every row, in order,
    [close_workbook] is the last library call made, and the method
    returns or raises as [close_workbook] does, whatever the rows did. *)
Theorem workbook_closed_whatever_the_rows w b :
  outcome w In_fill_form_with_excel_data Files_new = None ->
  outcome w In_fill_form_with_excel_data
    (excel_open_workbook "SalesData.xlsx") = None ->
  outcome w In_fill_form_with_excel_data
    (excel_read_worksheet_as_table "data" true) = None ->
  let r := RobotSpareBinBot.fill_form_with_excel_data w b in
  submission_attempts (RobotSpareBinBot.out r) = seq 0 (length (worksheet w))
  /\ warnings (RobotSpareBinBot.out r)
     = map warning_for (row_exceptions w 0 (worksheet w) b)
  /\ last (library_calls (RobotSpareBinBot.out r))
     = Some (In_fill_form_with_excel_data, excel_close_workbook)
  /\ RobotSpareBinBot.val r
     = match outcome w In_fill_form_with_excel_data excel_close_workbook with
       | Some e => inl e
       | None => inr tt
       end.
Proof.
  intros Hnew Hopen Hread r. subst r.
  change (wp (RobotSpareBinBot.fill_form_with_excel_data w) b
            (fun evs _ r =>
               submission_attempts evs = seq 0 (length (worksheet w))
               /\ warnings evs
                  = map warning_for (row_exceptions w 0 (worksheet w) b)
               /\ last (library_calls evs)
                  = Some (In_fill_form_with_excel_data, excel_close_workbook)
               /\ r = match outcome w In_fill_form_with_excel_data
                              excel_close_workbook with
                      | Some e => inl e
                      | None => inr tt
                      end)).
  unfold RobotSpareBinBot.fill_form_with_excel_data.
  repeat form_step; cbv beta iota; try congruence.
  all: destruct (for_row_in_observed w (worksheet w) 0 b) as [Ha Hw];
    rewrite <- Erows in Ha, Hw.
  all: rewrite ?submission_attempts_app, ?warnings_app, ?library_calls_app,
         ?last_app, Ha, Hw.
  all: match goal with H : outcome _ _ excel_close_workbook = _ |- _ =>
         rewrite H end.
  all: cbn; rewrite ?app_nil_r; repeat split; reflexivity.
Qed.

Lemma workbook_closed_whatever_the_rows_witness :
  submission_attempts
    (RobotSpareBinBot.out
       (RobotSpareBinBot.fill_form_with_excel_data second_row_timeout
          RobotSpareBinBot.init)) = [0; 1; 2]
  /\ last (library_calls
             (RobotSpareBinBot.out
                (RobotSpareBinBot.fill_form_with_excel_data second_row_timeout
                   RobotSpareBinBot.init)))
     = Some (In_fill_form_with_excel_data, excel_close_workbook)
  /\ RobotSpareBinBot.val
       (RobotSpareBinBot.fill_form_with_excel_data second_row_timeout
          RobotSpareBinBot.init) = inr tt.
Proof.
  destruct (workbook_closed_whatever_the_rows second_row_timeout
              RobotSpareBinBot.init)
    as (Ha & _ & Hlast & Hval); [reflexivity | reflexivity | reflexivity |].
  exact (conj Ha (conj Hlast Hval)).
Defined.

(** X5. A row that has the four columns, on a form whose calls all
    return, is submitted as it stands: first and last name as they are
    in the row, sales target and sales result converted with [str], then
    the click on Submit and the log record naming the sales
    representative. *)
Theorem well_formed_row_is_submitted w i row b first_name last_name target sales :
  (forall op, outcome w (In_fill_and_submit_sales_form i) op = None) ->
  row !! "First Name" = Some first_name ->
  row !! "Last Name" = Some last_name ->
  row !! "Sales Target" = Some target ->
  row !! "Sales" = Some sales ->
  RobotSpareBinBot.fill_and_submit_sales_form w i row b
  = ([ Called (In_fill_and_submit_sales_form i) browser_page None;
       Called (In_fill_and_submit_sales_form i)
         (page_fill "#firstname" first_name) None;
       Called (In_fill_and_submit_sales_form i)
         (page_fill "#lastname" last_name) None;
       Called (In_fill_and_submit_sales_form i)
         (page_select_option "#salestarget" (str target)) None;
       Called (In_fill_and_submit_sales_form i)
         (page_fill "#salesresult" (VStr (str sales))) None;
       Called (In_fill_and_submit_sales_form i) (page_click "text=Submit") None;
       Logged INFO ("Sales data submitted for: "
                    +:+ str first_name +:+ " " +:+ str last_name) ],
     b, inr tt).
Proof.
  intros Hcalls Hfirst Hlast Htarget Hsales.
  rewrite (result_eta (RobotSpareBinBot.fill_and_submit_sales_form w i row b)).
  match goal with
  | |- _ = ?target =>
      change (wp (RobotSpareBinBot.fill_and_submit_sales_form w i row) b
                (fun evs b' r => (evs, b', r) = target))
  end.
  unfold RobotSpareBinBot.fill_and_submit_sales_form,
    RobotSpareBinBot.sales_form_steps.
  repeat call_step; cbv beta iota;
    try match goal with
      | H : outcome _ _ _ = Some _ |- _ => rewrite Hcalls in H; discriminate H
      end;
    try congruence.
  simplify_eq. reflexivity.
Qed.

Lemma well_formed_row_is_submitted_witness :
  RobotSpareBinBot.fill_and_submit_sales_form (cooperative three_rows) 0
    (sample_row "Lisa" "Clark" 25000 13016) RobotSpareBinBot.init
  = ([ Called (In_fill_and_submit_sales_form 0) browser_page None;
       Called (In_fill_and_submit_sales_form 0)
         (page_fill "#firstname" (VStr "Lisa")) None;
       Called (In_fill_and_submit_sales_form 0)
         (page_fill "#lastname" (VStr "Clark")) None;
       Called (In_fill_and_submit_sales_form 0)
         (page_select_option "#salestarget" "25000") None;
       Called (In_fill_and_submit_sales_form 0)
         (page_fill "#salesresult" (VStr "13016")) None;
       Called (In_fill_and_submit_sales_form 0) (page_click "text=Submit") None;
       Logged INFO "Sales data submitted for: Lisa Clark" ],
     RobotSpareBinBot.init, inr tt).
Proof.
  apply (well_formed_row_is_submitted (cooperative three_rows) 0
           (sample_row "Lisa" "Clark" 25000 13016) RobotSpareBinBot.init
           (VStr "Lisa") (VStr "Clark") (VInt 25000) (VInt 13016)).
  - intros op. reflexivity.
  - vm_compute. reflexivity.
  - vm_compute. reflexivity.
  - vm_compute. reflexivity.
  - vm_compute. reflexivity.
Defined.

(** X6. On a form whose calls all return, the steps for a row succeed
    exactly when the row has the four columns; otherwise they raise
    [KeyError] for the first column the row lacks, in the order First
    Name, Last Name, Sales Target, Sales. *)
Theorem sales_form_steps_need_the_columns w i row b :
  (forall op, outcome w (In_fill_and_submit_sales_form i) op = None) ->
  RobotSpareBinBot.val (RobotSpareBinBot.sales_form_steps w i row b)
  = match first_missing row with
    | Some key => inl (KeyError key)
    | None => inr tt
    end.
Proof.
  intros Hcalls.
  change (wp (RobotSpareBinBot.sales_form_steps w i row) b
            (fun _ _ r => r = match first_missing row with
                              | Some key => inl (KeyError key)
                              | None => inr tt
                              end)).
  unfold RobotSpareBinBot.sales_form_steps.
  repeat call_step; cbv beta iota;
    try match goal with
      | H : outcome _ _ _ = Some _ |- _ => rewrite Hcalls in H; discriminate H
      end.
  all: unfold first_missing, required_columns;
    rewrite ?filter_cons, ?filter_nil;
    repeat case_decide; try congruence; reflexivity.
Qed.

Lemma sales_form_steps_need_the_columns_witness :
  RobotSpareBinBot.val
    (RobotSpareBinBot.sales_form_steps (cooperative three_rows) 0
       (delete "Last Name" (sample_row "Lisa" "Clark" 25000 13016))
       RobotSpareBinBot.init)
  = inl (KeyError "Last Name").
Proof.
  rewrite (sales_form_steps_need_the_columns (cooperative three_rows) 0
             (delete "Last Name" (sample_row "Lisa" "Clark" 25000 13016))
             RobotSpareBinBot.init).
  - vm_compute. reflexivity.
  - intros op. reflexivity.
Defined.

(** X7. A row that lacks one of the four columns is never submitted,
    whatever the form does: the click on Submit is not made, and the
    method logs one warning and returns. *)
Theorem row_missing_a_column_is_not_submitted w i row b key :
  key ∈ required_columns ->
  row !! key = None ->
  let r := RobotSpareBinBot.fill_and_submit_sales_form w i row b in
  ((In_fill_and_submit_sales_form i, page_click "text=Submit")
   ∉ library_calls (RobotSpareBinBot.out r))
  /\ length (warnings (RobotSpareBinBot.out r)) = 1
  /\ RobotSpareBinBot.val r = inr tt.
Proof.
  intros Hkey Hnone r. subst r.
  assert (row !! "First Name" = None \/ row !! "Last Name" = None
          \/ row !! "Sales Target" = None \/ row !! "Sales" = None) as Hmiss.
  { unfold required_columns in Hkey.
    repeat (apply elem_of_cons in Hkey as [-> | Hkey]; [tauto |]).
    by apply elem_of_nil in Hkey. }
  change (wp (RobotSpareBinBot.fill_and_submit_sales_form w i row) b
            (fun evs _ r =>
               ((In_fill_and_submit_sales_form i, page_click "text=Submit")
                ∉ library_calls evs)
               /\ length (warnings evs) = 1 /\ r = inr tt)).
  unfold RobotSpareBinBot.fill_and_submit_sales_form,
    RobotSpareBinBot.sales_form_steps.
  repeat call_step; cbv beta iota;
    try (exfalso; destruct Hmiss as [? | [? | [? | ?]]]; congruence).
  all: split; [| split; reflexivity].
  all: cbn; rewrite ?elem_of_cons, elem_of_nil; intuition discriminate.
Qed.

Lemma row_missing_a_column_is_not_submitted_witness :
  ((In_fill_and_submit_sales_form 0, page_click "text=Submit")
   ∉ library_calls
       (RobotSpareBinBot.out
          (RobotSpareBinBot.fill_and_submit_sales_form (cooperative three_rows) 0
             (delete "Sales" (sample_row "Lisa" "Clark" 25000 13016))
             RobotSpareBinBot.init)))
  /\ length
       (warnings
          (RobotSpareBinBot.out
             (RobotSpareBinBot.fill_and_submit_sales_form
                (cooperative three_rows) 0
                (delete "Sales" (sample_row "Lisa" "Clark" 25000 13016))
                RobotSpareBinBot.init))) = 1
  /\ RobotSpareBinBot.val
       (RobotSpareBinBot.fill_and_submit_sales_form (cooperative three_rows) 0
          (delete "Sales" (sample_row "Lisa" "Clark" 25000 13016))
          RobotSpareBinBot.init) = inr tt.
Proof.
  apply (row_missing_a_column_is_not_submitted (cooperative three_rows) 0
           (delete "Sales" (sample_row "Lisa" "Clark" 25000 13016))
           RobotSpareBinBot.init "Sales").
  - unfold required_columns. rewrite !elem_of_cons. tauto.
  - vm_compute. reflexivity.
Defined.

Section MethodReports.
Import RobotSpareBinBot.
Variable w : World.

Lemma open_the_intranet_website_reports :
  reports "Error opening the website: " (open_the_intranet_website w).
Proof. eapply logs_and_reraises_reports, open_the_intranet_website_shape. Qed.

Lemma log_in_reports : reports "Login failed: " (log_in w).
Proof. eapply logs_and_reraises_reports, log_in_shape. Qed.

Lemma download_excel_file_reports :
  reports "Failed to download Excel file: " (download_excel_file w).
Proof. eapply logs_and_reraises_reports, download_excel_file_shape. Qed.

Lemma collect_results_reports :
  reports "Error taking screenshot: " (collect_results w).
Proof. eapply logs_and_reraises_reports, collect_results_shape. Qed.

Lemma export_as_pdf_reports : reports "Error exporting PDF: " (export_as_pdf w).
Proof. eapply logs_and_reraises_reports, export_as_pdf_shape. Qed.

Lemma log_out_reports : reports "Error during log out: " (log_out w).
Proof. eapply logs_and_reraises_reports, log_out_shape. Qed.

Lemma wp_reports prefix (m : M unit) b (Q : list event -> t -> exn + unit -> Prop) :
  reports prefix m ->
  (forall evs, Forall library_event evs -> errors evs = [] ->
               Q evs b (inr tt)) ->
  (forall evs e, Forall library_event evs ->
                 errors evs = [prefix +:+ str_exn e] -> Q evs b (inl e)) ->
  wp m b Q.
Proof.
  intros Hm Hret Hraise. unfold wp.
  destruct (Hm b) as (evs & Hlib & [[-> Herr] | (e & -> & Herr)]); cbn; auto.
Qed.
End MethodReports.

Ltac wp_report Hreports :=
  let evs := fresh "evs" in
  let e := fresh "e" in
  let Hevs := fresh "Hevs" in
  let Herr := fresh "Herr" in
  eapply wp_reports; [apply Hreports | intros evs Hevs Herr | intros evs e Hevs Herr].

(** Stepping through [run] with what each method reports. *)
Ltac report_step :=
  cbv beta iota;
  lazymatch goal with
  | |- wp (RobotSpareBinBot.open_the_intranet_website _) _ _ =>
      wp_report open_the_intranet_website_reports
  | |- wp (RobotSpareBinBot.log_in _) _ _ => wp_report log_in_reports
  | |- wp (RobotSpareBinBot.download_excel_file _) _ _ =>
      wp_report download_excel_file_reports
  | |- wp (RobotSpareBinBot.fill_form_with_excel_data _) _ _ =>
      wp_report fill_form_with_excel_data_reports
  | |- wp (RobotSpareBinBot.collect_results _) _ _ =>
      wp_report collect_results_reports
  | |- wp (RobotSpareBinBot.export_as_pdf _) _ _ =>
      wp_report export_as_pdf_reports
  | |- wp (RobotSpareBinBot.log_out _) _ _ => wp_report log_out_reports
  | |- _ => wp_step
  end.

Ltac library_facts :=
  repeat match goal with
    | H : Forall library_event ?evs |- _ =>
        pose proof (library_no_trigger_calls evs H);
        pose proof (library_no_fired_triggers evs H);
        pose proof (library_no_rejected_triggers evs H);
        clear H
    end.

Ltac observe_more :=
  rewrite ?trigger_calls_app, ?fired_triggers_app, ?rejected_triggers_app,
    ?errors_app, ?last_app.

Ltac rewrite_known :=
  repeat match goal with
    | H : _ ?evs = _ |- _ => rewrite ?H in *; clear H
    end.

(** X8. The triggers that fire during a run are, in order, the first
    [k] of the workflow, followed by [handle_error] unless all five
    fired; the run ends in [completed] when all five fired and in
    [error] otherwise.  No step of the workflow is skipped or repeated. *)
Theorem run_fires_a_prefix_of_the_workflow w s :
  let r := RobotSpareBinBot.run w (RobotSpareBinBot.at_state s) in
  exists k,
    k <= 5
    /\ fired_triggers (RobotSpareBinBot.out r)
       = take k workflow
         ++ (if decide (k = 5) then [] else [BotStateMachine.handle_error])
    /\ RobotSpareBinBot.current_state (RobotSpareBinBot.st r)
       = (if decide (k = 5) then BotStateMachine.completed
          else BotStateMachine.error).
Proof.
  intros r. subst r.
  change (wp (RobotSpareBinBot.run w) (RobotSpareBinBot.at_state s)
            (fun evs b' _ =>
               exists k,
                 k <= 5
                 /\ fired_triggers evs
                    = take k workflow
                      ++ (if decide (k = 5) then []
                          else [BotStateMachine.handle_error])
                 /\ RobotSpareBinBot.current_state b'
                    = (if decide (k = 5) then BotStateMachine.completed
                       else BotStateMachine.error))).
  unfold RobotSpareBinBot.run, RobotSpareBinBot.run_steps.
  destruct (decide (s = BotStateMachine.start)) as [-> | Hs];
    repeat wp_step; cbv beta iota;
    quiet_facts; observe; rewrite_facts; cbn;
    first [ solve [exists 0; repeat split; first [lia | reflexivity]]
          | solve [exists 1; repeat split; first [lia | reflexivity]]
          | solve [exists 2; repeat split; first [lia | reflexivity]]
          | solve [exists 3; repeat split; first [lia | reflexivity]]
          | solve [exists 4; repeat split; first [lia | reflexivity]]
          | solve [exists 5; repeat split; first [lia | reflexivity]] ].
Qed.

(** X9. [run] never calls [recover], and it calls [handle_error] once
    when it ends in [error] and not at all when it ends in [completed]:
    an errored controller stays in [error] until someone else recovers
    it. *)
Theorem run_never_recovers w s :
  let r := RobotSpareBinBot.run w (RobotSpareBinBot.at_state s) in
  (BotStateMachine.recover ∉ (trigger_calls (RobotSpareBinBot.out r)).*1)
  /\ filter (fun t => t = BotStateMachine.handle_error)
       (trigger_calls (RobotSpareBinBot.out r)).*1
     = (if decide (RobotSpareBinBot.current_state (RobotSpareBinBot.st r)
                   = BotStateMachine.error)
        then [BotStateMachine.handle_error] else []).
Proof.
  intros r. subst r.
  change (wp (RobotSpareBinBot.run w) (RobotSpareBinBot.at_state s)
            (fun evs b' _ =>
               (BotStateMachine.recover ∉ (trigger_calls evs).*1)
               /\ filter (fun t => t = BotStateMachine.handle_error)
                    (trigger_calls evs).*1
                  = (if decide (RobotSpareBinBot.current_state b'
                                = BotStateMachine.error)
                     then [BotStateMachine.handle_error] else []))).
  unfold RobotSpareBinBot.run, RobotSpareBinBot.run_steps.
  destruct (decide (s = BotStateMachine.start)) as [-> | Hs];
    repeat wp_step; cbv beta iota;
    quiet_facts; observe; rewrite_facts; cbn;
    (split; [rewrite ?elem_of_cons, elem_of_nil; intuition discriminate |]);
    rewrite ?filter_cons, ?filter_nil;
    repeat case_decide; try congruence; reflexivity.
Qed.

Section Task.
Import RobotSpareBinBot.
Variable w : World.

(** What the [try] block of [run] leaves on a fresh controller. *)
Lemma run_steps_fresh :
  wp (run_steps w) (at_state BotStateMachine.start)
     (fun evs b' r =>
        rejected_triggers evs = []
        /\ exists s', b' = at_state s'
        /\ match r with
           | inr _ =>
               s' = BotStateMachine.completed
               /\ errors evs = []
               /\ last evs = Some (Logged INFO "Bot completed successfully.")
           | inl e =>
               exists prefix,
                 prefix ∈ error_prefixes
                 /\ errors evs = [prefix +:+ str_exn e]
           end).
Proof.
  unfold run_steps. repeat report_step; cbv beta iota.
  all: library_facts; observe_more; rewrite_known; cbn.
  all: split; [reflexivity | eexists; split; [reflexivity |]].
  all: try (repeat split; reflexivity).
  all: eexists; split; [| reflexivity].
  all: unfold error_prefixes; rewrite !elem_of_cons; tauto.
Qed.
End Task.

(** X10. The task never raises, so the caller cannot tell a failed run
    from a successful one except by the log.  On the fresh controller
    the task builds, the machine rejects no trigger.  Either the run
    ends in [completed], no error was logged and the last event is the
    record of success; or it ends in [error], a collaborator method has
    raised some [e], and exactly two errors were logged, the method's
    own and that of [run], both ending in the text of [e], the
    [handle_error] transition being the last event. *)
Theorem task_log_tells_the_outcome w :
  let r := robot_spare_bin_python w in
  RobotSpareBinBot.val r = inr tt
  /\ rejected_triggers (RobotSpareBinBot.out r) = []
  /\ ((RobotSpareBinBot.current_state (RobotSpareBinBot.st r)
       = BotStateMachine.completed
       /\ errors (RobotSpareBinBot.out r) = []
       /\ last (RobotSpareBinBot.out r)
          = Some (Logged INFO "Bot completed successfully."))
      \/ (RobotSpareBinBot.current_state (RobotSpareBinBot.st r)
          = BotStateMachine.error
          /\ exists prefix e s',
               prefix ∈ error_prefixes
               /\ errors (RobotSpareBinBot.out r)
                  = [ prefix +:+ str_exn e;
                      "Unexpected error occurred: " +:+ str_exn e ]
               /\ last (RobotSpareBinBot.out r)
                  = Some (Fired BotStateMachine.handle_error s'
                            (Some BotStateMachine.error)))).
Proof.
  intros r. subst r. unfold robot_spare_bin_python.
  rewrite init_at_start.
  pose proof (run_steps_fresh w) as Hsteps. unfold wp in Hsteps.
  unfold RobotSpareBinBot.run, RobotSpareBinBot.try_except.
  destruct (RobotSpareBinBot.run_steps w _) as [[evs b'] [e | []]];
    cbn [RobotSpareBinBot.out RobotSpareBinBot.st RobotSpareBinBot.val
           fst snd] in Hsteps;
    destruct Hsteps as (Hrej & s' & -> & Hcase).
  - destruct Hcase as (prefix & Hprefix & Herr).
    rewrite run_handler. cbn [RobotSpareBinBot.out RobotSpareBinBot.st
                                RobotSpareBinBot.val fst snd].
    rewrite rejected_triggers_app, errors_app, last_app, Hrej, Herr.
    split; [reflexivity | split; [reflexivity |]].
    right. split; [reflexivity |]. by exists prefix, e, s'.
  - destruct Hcase as (-> & Herr & Hlast).
    cbn [RobotSpareBinBot.out RobotSpareBinBot.st RobotSpareBinBot.val fst snd].
    split; [reflexivity | split; [exact Hrej |]]. by left.
Qed.

Section Recovery.
Import RobotSpareBinBot.

Lemma run_leaves_at_state w s :
  exists s', st (run w (at_state s)) = at_state s'.
Proof.
  pose proof (run_steps_outcome w s) as Hsteps. unfold wp in Hsteps.
  unfold run, try_except.
  destruct (run_steps w (at_state s)) as [[evs b'] [e | []]]; cbn in Hsteps.
  - destruct Hsteps as [s' ->]. rewrite run_handler. by eexists.
  - subst b'. by eexists.
Qed.
End Recovery.

(** X11. A controller left in [error] by a run is usable again after
    [recover]: the trigger fires, the machine is back in [start], and a
    second run with cooperative collaborators ends in [completed]. *)
Theorem recovered_controller_runs_again w s w' :
  cooperative_outside_rows w' ->
  RobotSpareBinBot.current_state
    (RobotSpareBinBot.st (RobotSpareBinBot.run w (RobotSpareBinBot.at_state s)))
  = BotStateMachine.error ->
  exists b,
    RobotSpareBinBot.fire BotStateMachine.recover
      (RobotSpareBinBot.st
         (RobotSpareBinBot.run w (RobotSpareBinBot.at_state s)))
    = ([Fired BotStateMachine.recover BotStateMachine.error
          (Some BotStateMachine.start)], b, inr tt)
    /\ RobotSpareBinBot.current_state b = BotStateMachine.start
    /\ RobotSpareBinBot.val (RobotSpareBinBot.run w' b) = inr tt
    /\ RobotSpareBinBot.current_state
         (RobotSpareBinBot.st (RobotSpareBinBot.run w' b))
       = BotStateMachine.completed.
Proof.
  intros Hcoop Herr.
  destruct (run_leaves_at_state w s) as [s' Hs'].
  rewrite Hs' in Herr |- *. cbn in Herr. subst s'.
  exists (RobotSpareBinBot.at_state BotStateMachine.start).
  split; [reflexivity | split; [reflexivity |]].
  by rewrite (run_cooperative w' Hcoop).
Qed.

Lemma recovered_controller_runs_again_witness :
  exists b,
    RobotSpareBinBot.fire BotStateMachine.recover
      (RobotSpareBinBot.st
         (RobotSpareBinBot.run sign_out_timeout
            (RobotSpareBinBot.at_state BotStateMachine.start)))
    = ([Fired BotStateMachine.recover BotStateMachine.error
          (Some BotStateMachine.start)], b, inr tt)
    /\ RobotSpareBinBot.current_state b = BotStateMachine.start
    /\ RobotSpareBinBot.val (RobotSpareBinBot.run (cooperative three_rows) b)
       = inr tt
    /\ RobotSpareBinBot.current_state
         (RobotSpareBinBot.st
            (RobotSpareBinBot.run (cooperative three_rows) b))
       = BotStateMachine.completed.
Proof.
  apply (recovered_controller_runs_again sign_out_timeout
           BotStateMachine.start (cooperative three_rows)).
  - intros ctx op _. reflexivity.
  - vm_compute. reflexivity.
Defined.

(** X12. When every library call outside the per-row method returns, the
    task completes whatever the rows do: the form is entered for every
    row of the worksheet, once each and in order, one warning is logged
    per row whose steps raise, and both export artifacts are written,
    the screenshot before the PDF. *)
Theorem task_completes_whatever_the_rows w :
  cooperative_outside_rows w ->
  let r := robot_spare_bin_python w in
  RobotSpareBinBot.current_state (RobotSpareBinBot.st r)
  = BotStateMachine.completed
  /\ submission_attempts (RobotSpareBinBot.out r)
     = seq 0 (length (worksheet w))
  /\ warnings (RobotSpareBinBot.out r)
     = map warning_for
         (row_exceptions w 0 (worksheet w)
            (RobotSpareBinBot.at_state BotStateMachine.process_data))
  /\ errors (RobotSpareBinBot.out r) = []
  /\ export_artifacts (RobotSpareBinBot.out r)
     = ["output/sales_summary.png"; "output/sales_results.pdf"].
Proof.
  intros Hcoop r. subst r. unfold robot_spare_bin_python.
  rewrite init_at_start, (run_cooperative w Hcoop).
  cbn [RobotSpareBinBot.out RobotSpareBinBot.st fst snd].
  destruct (for_row_in_observed w (worksheet w) 0
              (RobotSpareBinBot.at_state BotStateMachine.process_data))
    as [Ha Hw].
  destruct (row_events_for_row_in w (worksheet w) 0
              (RobotSpareBinBot.at_state BotStateMachine.process_data))
    as [_ Hrows].
  pose proof (row_events_no_errors _ Hrows) as He.
  assert (Forall harmless
            (RobotSpareBinBot.out
               (RobotSpareBinBot.for_row_in w 0 (worksheet w)
                  (RobotSpareBinBot.at_state BotStateMachine.process_data))))
    as Hh.
  { eapply Forall_impl; [exact Hrows | apply row_event_harmless]. }
  pose proof (harmless_no_export_artifacts _ Hh) as Hx.
  rewrite !submission_attempts_app, !warnings_app, !errors_app,
    !export_artifacts_app, Ha, Hw, He, Hx.
  cbn. rewrite !app_nil_r. repeat split; reflexivity.
Qed.

Lemma task_completes_whatever_the_rows_witness :
  RobotSpareBinBot.current_state
    (RobotSpareBinBot.st (robot_spare_bin_python second_row_timeout))
  = BotStateMachine.completed
  /\ submission_attempts
       (RobotSpareBinBot.out (robot_spare_bin_python second_row_timeout))
     = [0; 1; 2]
  /\ warnings (RobotSpareBinBot.out (robot_spare_bin_python second_row_timeout))
     = ["Error submitting sales form: Timeout 30000ms exceeded."]
  /\ errors (RobotSpareBinBot.out (robot_spare_bin_python second_row_timeout))
     = []
  /\ export_artifacts
       (RobotSpareBinBot.out (robot_spare_bin_python second_row_timeout))
     = ["output/sales_summary.png"; "output/sales_results.pdf"].
Proof.
  apply (task_completes_whatever_the_rows second_row_timeout).
  intros ctx op Hne. cbn. destruct (decide _) as [-> |]; [| reflexivity].
  by destruct (Hne 1).
Defined.

Section FailStop.
Import RobotSpareBinBot.

Lemma fail_stop_harmless tr :
  Forall (fun ev => fatal ev = false) tr -> fail_stop tr.
Proof.
  intros Hall pre ev post -> Hfatal.
  apply Forall_app in Hall as [_ Hall]. apply Forall_cons in Hall as [Hev _].
  congruence.
Qed.

Lemma fail_stop_cons ev tr : library_calls tr = [] -> fail_stop (ev :: tr).
Proof.
  intros Hnone pre ev' post Heq Hfatal.
  destruct pre as [| ev0 pre]; cbn in Heq; injection Heq as -> ->; [done |].
  rewrite library_calls_app in Hnone.
  apply app_eq_nil in Hnone as [_ Hnone].
  destruct ev' as [| ctx op r |]; try discriminate Hfatal.
  discriminate Hnone.
Qed.

Lemma fail_stop_app tr1 tr2 :
  Forall (fun ev => fatal ev = false) tr1 -> fail_stop tr2 ->
  fail_stop (tr1 ++ tr2).
Proof.
  induction 1 as [| ev0 tr1 Hev0 _ IH]; intros Htr2; [done |].
  intros pre ev post Heq Hfatal.
  destruct pre as [| ev1 pre]; cbn in Heq; injection Heq as -> Heq.
  - congruence.
  - by eapply IH.
Qed.

Lemma returned_from_not_fatal ctx calls :
  Forall (returned_from ctx) calls -> Forall (fun ev => fatal ev = false) calls.
Proof.
  intros H. eapply Forall_impl; [exact H |].
  intros ev [op ->]. by destruct ctx.
Qed.

Lemma row_events_not_fatal evs :
  Forall row_event evs -> Forall (fun ev => fatal ev = false) evs.
Proof.
  intros H. eapply Forall_impl; [exact H |].
  intros ev Hev. by destruct ev as [| [] ? ? |].
Qed.

Lemma logs_and_reraises_halts ctx prefix info (m : M unit) :
  logs_and_reraises ctx prefix info m -> halts m.
Proof.
  intros H b.
  destruct (H b) as (calls & Hcalls & [-> | (op & e & ->)]);
    cbn [out val fst snd];
    apply returned_from_not_fatal in Hcalls.
  - apply Forall_app. split; [done |]. by repeat constructor.
  - intros tail Htail. rewrite <- app_assoc.
    apply fail_stop_app; [done |]. by apply fail_stop_cons.
Qed.
End FailStop.

Section Halting.
Import RobotSpareBinBot.
Variable w : World.

Lemma fail_stop_cons_harmless ev tr :
  fatal ev = false -> fail_stop tr -> fail_stop (ev :: tr).
Proof.
  intros Hev Htr. apply (fail_stop_app [ev]); [by repeat constructor | done].
Qed.

Lemma fill_form_with_excel_data_halts : halts (fill_form_with_excel_data w).
Proof.
  intros b.
  change (wp (fill_form_with_excel_data w) b
            (fun evs _ r =>
               match r with
               | inr _ => Forall (fun ev => fatal ev = false) evs
               | inl _ =>
                   forall tail, library_calls tail = [] ->
                                fail_stop (evs ++ tail)
               end)).
  unfold fill_form_with_excel_data.
  repeat form_step; cbv beta iota;
    try apply row_events_not_fatal in Hrows.
  all: try (intros tail Htail; rewrite <- ?app_assoc; cbn [app];
            repeat first
              [ apply fail_stop_cons_harmless; [reflexivity |]
              | apply fail_stop_app; [assumption |] ];
            apply fail_stop_cons; exact Htail).
  rewrite ?Forall_app. repeat split; try assumption; by repeat constructor.
Qed.

Lemma open_the_intranet_website_halts : halts (open_the_intranet_website w).
Proof. eapply logs_and_reraises_halts, open_the_intranet_website_shape. Qed.

Lemma log_in_halts : halts (log_in w).
Proof. eapply logs_and_reraises_halts, log_in_shape. Qed.

Lemma download_excel_file_halts : halts (download_excel_file w).
Proof. eapply logs_and_reraises_halts, download_excel_file_shape. Qed.

Lemma collect_results_halts : halts (collect_results w).
Proof. eapply logs_and_reraises_halts, collect_results_shape. Qed.

Lemma export_as_pdf_halts : halts (export_as_pdf w).
Proof. eapply logs_and_reraises_halts, export_as_pdf_shape. Qed.

Lemma log_out_halts : halts (log_out w).
Proof. eapply logs_and_reraises_halts, log_out_shape. Qed.

Lemma wp_halts P (m : M unit) b (Q : list event -> t -> exn + unit -> Prop) :
  quiet P m -> halts m ->
  (forall evs, Forall (fun ev => fatal ev = false) evs -> Q evs b (inr tt)) ->
  (forall evs e,
     (forall tail, library_calls tail = [] -> fail_stop (evs ++ tail)) ->
     Q evs b (inl e)) ->
  wp m b Q.
Proof.
  intros Hq Hh Hret Hraise. unfold wp.
  destruct (Hq b) as [Hst _]. specialize (Hh b). rewrite Hst.
  destruct (val (m b)) as [e | []]; auto.
Qed.
End Halting.

Ltac wp_halt Hquiet Hhalts :=
  let evs := fresh "evs" in
  let e := fresh "e" in
  let H := fresh "Hstop" in
  eapply wp_halts; [apply Hquiet | apply Hhalts | intros evs H | intros evs e H].

Ltac halt_step :=
  cbv beta iota;
  lazymatch goal with
  | |- wp (RobotSpareBinBot.open_the_intranet_website _) _ _ =>
      wp_halt quiet_open_the_intranet_website open_the_intranet_website_halts
  | |- wp (RobotSpareBinBot.log_in _) _ _ => wp_halt quiet_log_in log_in_halts
  | |- wp (RobotSpareBinBot.download_excel_file _) _ _ =>
      wp_halt quiet_download_excel_file download_excel_file_halts
  | |- wp (RobotSpareBinBot.fill_form_with_excel_data _) _ _ =>
      wp_halt quiet_fill_form_with_excel_data fill_form_with_excel_data_halts
  | |- wp (RobotSpareBinBot.collect_results _) _ _ =>
      wp_halt quiet_collect_results collect_results_halts
  | |- wp (RobotSpareBinBot.export_as_pdf _) _ _ =>
      wp_halt quiet_export_as_pdf export_as_pdf_halts
  | |- wp (RobotSpareBinBot.log_out _) _ _ => wp_halt quiet_log_out log_out_halts
  | |- _ => wp_step
  end.

(** X13. [run] stops at the first library call that raises outside the
    per-row method: whatever the collaborators do and whatever state the
    machine was in, no library call is made after such a call.  (Calls
    that raise inside the per-row method do not stop anything.) *)
Theorem no_library_call_after_a_fatal_one w s pre ev post :
  RobotSpareBinBot.out (RobotSpareBinBot.run w (RobotSpareBinBot.at_state s))
  = pre ++ ev :: post ->
  fatal ev = true ->
  library_calls post = [].
Proof.
  revert pre ev post.
  change (wp (RobotSpareBinBot.run w) (RobotSpareBinBot.at_state s)
            (fun evs _ _ => fail_stop evs)).
  unfold RobotSpareBinBot.run, RobotSpareBinBot.run_steps.
  destruct (decide (s = BotStateMachine.start)) as [-> | Hs];
    repeat halt_step; cbv beta iota.
  all: rewrite <- ?app_assoc.
  all: repeat (apply fail_stop_app;
               [first [assumption | by repeat constructor] |]).
  all: first [ match goal with H : forall tail, _ |- _ => by apply H end
             | apply fail_stop_harmless; by repeat constructor ].
Qed.

Lemma no_library_call_after_a_fatal_one_witness :
  library_calls
    (drop 12
       (RobotSpareBinBot.out
          (RobotSpareBinBot.run download_outage
             (RobotSpareBinBot.at_state BotStateMachine.start)))) = [].
Proof.
  apply (no_library_call_after_a_fatal_one download_outage BotStateMachine.start
           (take 11
              (RobotSpareBinBot.out
                 (RobotSpareBinBot.run download_outage
                    (RobotSpareBinBot.at_state BotStateMachine.start))))
           (Called In_download_excel_file HTTP_new
              (Some (LibraryError "HTTPError: 503 Service Unavailable")))).
  - vm_compute. reflexivity.
  - reflexivity.
Defined.

Section Artifacts.
Import RobotSpareBinBot.
Variable w : World.

Lemma collect_results_artifacts b :
  wp (collect_results w) b
     (fun evs b' r =>
        b' = b /\ Forall library_event evs
        /\ export_artifacts evs
           = match r with
             | inr _ => ["output/sales_summary.png"]
             | inl _ => []
             end).
Proof.
  unfold collect_results. repeat call_step; cbv beta iota.
  all: repeat split; try reflexivity; by repeat constructor.
Qed.

Lemma export_as_pdf_artifacts b :
  wp (export_as_pdf w) b
     (fun evs b' r =>
        b' = b /\ Forall library_event evs
        /\ export_artifacts evs
           = match r with
             | inr _ => ["output/sales_results.pdf"]
             | inl _ => []
             end).
Proof.
  unfold export_as_pdf. repeat call_step; cbv beta iota.
  all: repeat split; try reflexivity; by repeat constructor.
Qed.

Lemma wp_writes path (m : M unit) b (Q : list event -> t -> exn + unit -> Prop) :
  wp m b (fun evs b' r =>
            b' = b /\ Forall library_event evs
            /\ export_artifacts evs = match r with
                                      | inr _ => [path]
                                      | inl _ => []
                                      end) ->
  (forall evs, Forall library_event evs -> export_artifacts evs = [path] ->
               Q evs b (inr tt)) ->
  (forall evs e, Forall library_event evs -> export_artifacts evs = [] ->
                 Q evs b (inl e)) ->
  wp m b Q.
Proof.
  unfold wp. intros (-> & Hlib & Hart) Hret Hraise.
  destruct (val (m b)) as [e | []]; auto.
Qed.
End Artifacts.

Ltac wp_write Hartifacts :=
  let evs := fresh "evs" in
  let e := fresh "e" in
  let Hevs := fresh "Hevs" in
  let Hart := fresh "Hart" in
  eapply wp_writes;
  [apply Hartifacts | intros evs Hevs Hart | intros evs e Hevs Hart].

Ltac artifact_step :=
  cbv beta iota;
  lazymatch goal with
  | |- wp (RobotSpareBinBot.collect_results _) _ _ =>
      wp_write collect_results_artifacts
  | |- wp (RobotSpareBinBot.export_as_pdf _) _ _ =>
      wp_write export_as_pdf_artifacts
  | |- _ => wp_step
  end.

(** X14. The export artifacts a run writes are the first [k] of the
    screenshot and the PDF, with [k] at most 2: nothing else is written,
    and the PDF is never written without the screenshot.  Both are
    written ([k = 2]) exactly when [proceed_to_log_out] fires; a run in
    which it does not fire has written none of them or the screenshot
    alone. *)
Theorem artifacts_are_written_in_order w s :
  let r := RobotSpareBinBot.run w (RobotSpareBinBot.at_state s) in
  exists k,
    k <= 2
    /\ export_artifacts (RobotSpareBinBot.out r)
       = take k ["output/sales_summary.png"; "output/sales_results.pdf"]
    /\ (k = 2 <->
        BotStateMachine.proceed_to_log_out
        ∈ fired_triggers (RobotSpareBinBot.out r)).
Proof.
  intros r. subst r.
  change (wp (RobotSpareBinBot.run w) (RobotSpareBinBot.at_state s)
            (fun evs _ _ =>
               exists k,
                 k <= 2
                 /\ export_artifacts evs
                    = take k ["output/sales_summary.png";
                              "output/sales_results.pdf"]
                 /\ (k = 2 <->
                     BotStateMachine.proceed_to_log_out ∈ fired_triggers evs))).
  unfold RobotSpareBinBot.run, RobotSpareBinBot.run_steps.
  destruct (decide (s = BotStateMachine.start)) as [-> | Hs];
    repeat artifact_step; cbv beta iota;
    quiet_facts; observe; rewrite_known; cbn.
  all: first
         [ solve [ exists 2; split; [lia |]; split; [reflexivity |];
                   split; [intros _; rewrite !elem_of_cons; tauto | done] ]
         | solve [ exists 0; split; [lia |]; split; [reflexivity |];
                   split; [discriminate |];
                   rewrite ?elem_of_cons, elem_of_nil; intuition discriminate ]
         | solve [ exists 1; split; [lia |]; split; [reflexivity |];
                   split; [discriminate |];
                   rewrite ?elem_of_cons, elem_of_nil; intuition discriminate ] ].
Qed.
